(** * triagelib: request construction and response classification

    A shallow embedding of [triagelib/__init__.py] (the [TriageSession]
    client of the Triage REST API) and the properties of its request
    building, parameter checks and HTTP status classification.

    Python values are a small universe of dynamically typed objects, the
    methods are written in a state-and-exception monad whose state is the
    log of requests handed to [Session.send], and the parts of the Python
    runtime the module calls but does not define (the network, [json.loads],
    [str()] of containers) are the fields of a [Runtime] record.

    The calls to the module's logger are left out: they only format values
    and neither raise nor change what is sent.

    The module builds a [Request] and sends what [Request.prepare] makes of
    it.  Preparing is the library's work: it validates and rewrites the URL,
    validates the headers and may add credentials found in the URL; each of
    these steps can fail before anything is sent.  The three steps are
    fields of the runtime, and [prepare] composes them as the library does. *)

From Stdlib Require Import ZArith String Ascii List Decimal DecimalString Lia.
From stdpp Require Import base gmap strings list.

Set Warnings "-register-all".
Local Open Scope Z_scope.
Local Open Scope string_scope.

(** ** Python values *)

(** The objects a caller can pass.  [PObj] stands for an instance of any
    other class (float, dict, tuple, bytes, ...): all the module observes of
    such an object is its class name and its truth value. *)
Inductive pyval : Type :=
| PNone
| PBool (b : bool)
| PInt (z : Z)
| PStr (s : string)
| PList (l : list pyval)
| PObj (tyname : string) (truth : bool).

(** The classes named in the module's [isinstance] tests. *)
Inductive pytype : Type := T_str | T_int | T_list | T_bool.

(** [bool(v)], the test of [if v:]. *)
Definition py_bool (v : pyval) : bool :=
  match v with
  | PNone => false
  | PBool b => b
  | PInt z => negb (Z.eqb z 0)
  | PStr s => match s with EmptyString => false | String _ _ => true end
  | PList l => match l with [] => false | _ :: _ => true end
  | PObj _ t => t
  end.

(** [isinstance(v, t)]; [bool] is a subclass of [int]. *)
Definition isinstance (v : pyval) (t : pytype) : bool :=
  match t, v with
  | T_str, PStr _ => true
  | T_int, PInt _ => true
  | T_int, PBool _ => true
  | T_bool, PBool _ => true
  | T_list, PList _ => true
  | _, _ => false
  end.

(** [type(v).__name__]. *)
Definition type_name (v : pyval) : string :=
  match v with
  | PNone => "NoneType"
  | PBool _ => "bool"
  | PInt _ => "int"
  | PStr _ => "str"
  | PList _ => "list"
  | PObj n _ => n
  end.

Definition is_None (v : pyval) : bool :=
  match v with PNone => true | _ => false end.

(** [l.count(None)]. *)
Definition count_None (l : list pyval) : nat :=
  length (List.filter is_None l).

(** Decimal rendering of integers, as [str(int)] prints them. *)
Definition str_of_Z (z : Z) : string := NilZero.string_of_int (Z.to_int z).
Definition str_of_nat (n : nat) : string := NilZero.string_of_uint (Nat.to_uint n).

(** The double quote character, for interpreter messages. *)
Definition dq : string := String (ascii_of_nat 34) EmptyString.

(** ** Exceptions *)

(** The exception classes of the module, the two built-in ones it raises,
    and [ExternalError] for whatever the transport itself raises. *)
Inductive exc_class : Type :=
| TypeError
| ValueError
| TriageError
| TriageStateError
| TriageClientError
| TriageAuthError
| TriageServerError
| TriageFailureError
| ExternalError (name : string).

(** The base class written in each [class] statement. *)
Definition base_class (c : exc_class) : option exc_class :=
  match c with
  | TriageStateError => Some TriageError
  | TriageClientError => Some TriageError
  | TriageAuthError => Some TriageClientError
  | TriageServerError => Some TriageError
  | TriageFailureError => Some TriageError
  | _ => None
  end.

Definition exc_class_eqb (a b : exc_class) : bool :=
  match a, b with
  | TypeError, TypeError | ValueError, ValueError
  | TriageError, TriageError | TriageStateError, TriageStateError
  | TriageClientError, TriageClientError | TriageAuthError, TriageAuthError
  | TriageServerError, TriageServerError
  | TriageFailureError, TriageFailureError => true
  | ExternalError n, ExternalError m => String.eqb n m
  | _, _ => false
  end.

(** [issubclass(c, d)]: follow the base classes; the hierarchy has depth 2. *)
Fixpoint issubclass_fuel (fuel : nat) (c d : exc_class) : bool :=
  exc_class_eqb c d ||
  match fuel with
  | O => false
  | S k => match base_class c with
           | Some p => issubclass_fuel k p d
           | None => false
           end
  end.

Definition issubclass (c d : exc_class) : bool := issubclass_fuel 3 c d.

Record exc : Type := mkExc { exc_cls : exc_class; exc_msg : string }.

(** What a computation that may raise ends in. *)
Inductive result (A : Type) : Type :=
| Ok (a : A)
| Raise (e : exc).
Arguments Ok {A} a.
Arguments Raise {A} e.

(** ** HTTP messages and the runtime *)

(** The arguments of [Request(method, url, headers=headers)]. *)
Record Request : Type := NewRequest {
  req_method : string;
  req_url : string;
  req_headers : gmap string string
}.

(** What [Request.prepare] returns and [Session.send] takes.  The header
    names the module writes differ from one another in more than letter
    case, so the library's case-insensitive dictionary is a plain map. *)
Record PreparedRequest : Type := mkRequest {
  method : string;
  url : string;
  headers : gmap string string
}.

Record Response : Type := mkResponse {
  status_code : Z;
  text : string;
  content : list Byte.byte
}.

(** [Session.send] either completes with a response or raises. *)
Inductive send_result : Type :=
| Replied (r : Response)
| SendFailed (e : exc).

(** What [json.loads] produces. *)
Inductive json_value : Type :=
| JNull
| JBool (b : bool)
| JInt (z : Z)
| JFloat (literal : string)
| JStr (s : string)
| JArr (items : list json_value)
| JObj (members : list (string * json_value)).

(** The Python runtime around the module: the network behind
    [Session.send] (which may answer depending on the requests sent before),
    [json.loads] ([None] when it raises [ValueError]), [str()] of the
    objects whose rendering the module never relies on, and the three steps
    of [PreparedRequest.prepare] that can change or refuse a request:
    [prepare_url] (parses, validates and re-quotes the URL, or raises),
    [header_fault] (the exception [prepare_headers] raises for the first
    invalid header, if there is one) and [url_auth] (the Basic
    [Authorization] value [prepare_auth] derives from credentials in the
    prepared URL, if it carries any). *)
Record Runtime : Type := mkRuntime {
  net : list PreparedRequest -> PreparedRequest -> send_result;
  json_loads : string -> option json_value;
  obj_str : pyval -> string;
  prepare_url : string -> result string;
  header_fault : gmap string string -> option exc;
  url_auth : string -> option string
}.

(** ** The state-and-exception monad *)

(** The state is the log of requests handed to [Session.send], oldest
    first: the transport spy. *)
Definition M (A : Type) : Type :=
  list PreparedRequest -> result A * list PreparedRequest.

#[global] Instance M_ret : MRet M := fun A a w => (Ok a, w).
#[global] Instance M_bind : MBind M := fun A B f m w =>
  match m w with
  | (Ok a, w') => f a w'
  | (Raise e, w') => (Raise e, w')
  end.

Definition raise {A : Type} (c : exc_class) (msg : string) : M A :=
  fun w => (Raise (mkExc c msg), w).

(** [if c: raise cls(msg)]. *)
Definition raise_if (c : bool) (cls : exc_class) (msg : string) : M unit :=
  if c then raise cls msg else mret tt.

(** A pure computation that may raise. *)
Definition lift {A : Type} (r : result A) : M A := fun w => (r, w).

#[global] Instance result_ret : MRet result := fun A a => Ok a.
#[global] Instance result_bind : MBind result := fun A B f r =>
  match r with
  | Ok a => f a
  | Raise e => Raise e
  end.

(** ** Strings as the interpreter handles them *)

Section Client.

Context (rt : Runtime).

(** [str(v)], which is also what [{0}] in [str.format] renders. *)
Definition py_str (v : pyval) : string :=
  match v with
  | PNone => "None"
  | PBool true => "True"
  | PBool false => "False"
  | PInt z => str_of_Z z
  | PStr s => s
  | PList _ | PObj _ _ => obj_str rt v
  end.

(** [a + v] for a string [a]: only another string can be appended; the
    message is the one CPython 3 gives. *)
Definition str_add (a : string) (v : pyval) : result string :=
  match v with
  | PStr s => Ok (a +:+ s)
  | _ => Raise (mkExc TypeError
           ("can only concatenate str (not " +:+ dq +:+ type_name v +:+ dq
            +:+ ") to str"))
  end.

(** The items of [sep.join(l)], each of which must be a string. *)
Fixpoint join_items (i : nat) (l : list pyval) : result (list string) :=
  match l with
  | [] => Ok []
  | PStr s :: l' =>
      match join_items (S i) l' with
      | Ok ss => Ok (s :: ss)
      | Raise e => Raise e
      end
  | v :: _ => Raise (mkExc TypeError
                ("sequence item " +:+ str_of_nat i +:+ ": expected str instance, "
                 +:+ type_name v +:+ " found"))
  end.

(** [sep.join(l)] for a list object [l]. *)
Definition str_join (sep : string) (l : list pyval) : result string :=
  match join_items 0 l with
  | Ok ss => Ok (String.concat sep ss)
  | Raise e => Raise e
  end.

(** [sep.join(v)].  Every caller has checked [isinstance(v, list)] before,
    so only the first branch is ever taken; a string is joined character by
    character and anything else is taken not to be iterable. *)
Definition py_join (sep : string) (v : pyval) : result string :=
  match v with
  | PList l => str_join sep l
  | PStr s => Ok (String.concat sep
                    (map (fun c => String c EmptyString) (list_ascii_of_string s)))
  | _ => Raise (mkExc TypeError "can only join an iterable")
  end.

(** ** The session *)

Definition __name__ : string := "triagelib".

(** [TriageSession.apiver]. *)
Definition apiver : string := "1.0.0".

Record TriageSession : Type := mkSession {
  _triagehost : pyval;
  _usessl : bool;
  _userag : string;
  _email : pyval;
  _apikey : pyval;
  _headers : gmap string string
}.

(** [TriageSession.__init__(host, email, apikey, ssl, uag)]. *)
Definition __init__ (host email apikey ssl uag : pyval) : result TriageSession :=
  match ssl with
  | PBool usessl =>
      match uag with
      | PStr userag =>
          Ok {| _triagehost := host;
                _usessl := usessl;
                _userag := userag;
                _email := email;
                _apikey := apikey;
                _headers :=
                  <["Authorization" :=
                      "Token token=" +:+ py_str email +:+ ":" +:+ py_str apikey]>
                  (<["user-agent" := userag]>
                  (<["VE-API-Version" := apiver]>
                  (<["Accept" := "application/vnd.ve.v1.0+json"]> ∅))) |}
      | _ => Raise (mkExc TypeError (__name__ +:+ ": uag parameter must be a string"))
      end
  | _ => Raise (mkExc TypeError (__name__ +:+ ": ssl parameter must be True or False"))
  end.

(** The defaults of [ssl] and [uag]. *)
Definition default_ssl : pyval := PBool true.
Definition default_uag : pyval := PStr "Python CoFense Triage Client".

(** [Session().send(prep, verify=False)]: the request goes on the log and
    the network answers or fails. *)
Definition send (prep : PreparedRequest) : M Response :=
  fun w =>
    match net rt w prep with
    | Replied r => (Ok r, (w ++ [prep])%list)
    | SendFailed e => (Raise e, (w ++ [prep])%list)
    end.

(** [TriageSession._reqsend(prep, host)]. *)
Definition _reqsend (self : TriageSession) (prep : PreparedRequest) (host : pyval)
  : M Response :=
  resp ← send prep;
  raise_if (status_code resp =? 401)%Z TriageAuthError
    (__name__ +:+ ": Could not authenticate to Triage box " +:+ py_str host +:+ ".");;
  (if negb (status_code resp =? 200)%Z then
     let desc := __name__ +:+ ": Triage box " +:+ py_str (_triagehost self)
                 +:+ " returned HTTP error " +:+ str_of_Z (status_code resp) +:+ "." in
     if ((400 <=? status_code resp) && (status_code resp <? 500))%Z then
       raise TriageClientError desc
     else if ((500 <=? status_code resp) && (status_code resp <? 600))%Z then
       raise TriageServerError desc
     else raise TriageError desc
   else mret tt);;
  mret resp.

(** [TriageSession._parse(src)]. *)
Definition _parse (self : TriageSession) (src : string) : M json_value :=
  match json_loads rt src with
  | Some res => mret res
  | None => raise TriageError
              (__name__ +:+ ": Triage box " +:+ py_str (_triagehost self)
               +:+ " did not return a valid json output.")
  end.

(** ** The public methods *)

(** [if not isinstance(self._email, str): raise TypeError(...)] and the same
    for [self._apikey], the first two statements of every method. *)
Definition check_credentials (self : TriageSession) : M unit :=
  raise_if (negb (isinstance (_email self) T_str)) TypeError
    (__name__ +:+ ": email parameter must be a string");;
  raise_if (negb (isinstance (_apikey self) T_str)) TypeError
    (__name__ +:+ ": apikey parameter must be a string").

(** [if v and not isinstance(v, t): raise TypeError(__name__ + msg)]. *)
Definition check_param (v : pyval) (t : pytype) (msg : string) : M unit :=
  raise_if (py_bool v && negb (isinstance v t)) TypeError (__name__ +:+ msg).

(** [if v: params.append(item)]: [item] is evaluated only when [v] is true. *)
Definition append_if (v : pyval) (item : result string) (params : list string)
  : M (list string) :=
  if py_bool v then s ← lift item; mret (params ++ [s])%list else mret params.

(** ['http{0}://{1}/api/public/v1/'.format('s' if self._usessl else '', host)],
    the part every URL template starts with. *)
Definition api_root (self : TriageSession) : string :=
  "http" +:+ (if _usessl self then "s" else EmptyString) +:+ "://"
  +:+ py_str (_triagehost self) +:+ "/api/public/v1/".

(** [headers = self._headers.copy(); headers.update({'Content-Type': ct})]. *)
Definition with_content_type (self : TriageSession) (ct : string)
  : gmap string string :=
  <["Content-Type" := ct]> (_headers self).

(** [req.prepare()] for a request without body, cookies or explicit
    authentication, in the order of [PreparedRequest.prepare]: the URL,
    then the headers, then credentials taken from the URL, which replace
    the [Authorization] header. *)
Definition prepare (req : Request) : result PreparedRequest :=
  match prepare_url rt (req_url req) with
  | Raise e => Raise e
  | Ok u =>
      match header_fault rt (req_headers req) with
      | Some e => Raise e
      | None =>
          Ok {| method := req_method req;
                url := u;
                headers :=
                  match url_auth rt u with
                  | Some basic => <["Authorization" := basic]> (req_headers req)
                  | None => req_headers req
                  end |}
      end
  end.

Definition is_nonempty {A : Type} (l : list A) : bool :=
  match l with [] => false | _ :: _ => true end.

(** [TriageSession.reports]. *)
Definition reports (self : TriageSession)
    (match_priority category_id start_date tags end_date page per_page
     report_id : pyval) : M json_value :=
  check_credentials self;;
  check_param tags T_list ": tags parameter must be a list of strings";;
  check_param page T_int ": page parameter must be an integer";;
  check_param per_page T_int ": per_page parameter must be an integer";;
  check_param start_date T_str ": start_date parameter must be a string";;
  check_param end_date T_str ": end_date parameter must be a string";;
  check_param report_id T_int ": report_id parameter must be an integer";;
  check_param category_id T_int ": caterory_id parameter must be an integer";;
  check_param match_priority T_int ": match_priority parameter must be an integer";;
  params ← append_if tags (j ← py_join "," tags; Ok ("tags=" +:+ j)) [];
  params ← append_if page (Ok ("page=" +:+ py_str page)) params;
  params ← append_if per_page (Ok ("per_page=" +:+ py_str per_page)) params;
  params ← append_if start_date (str_add "start_date=" start_date) params;
  params ← append_if end_date (str_add "end_date=" end_date) params;
  params ← append_if match_priority
             (Ok ("match_priority=" +:+ py_str match_priority)) params;
  params ← append_if category_id
             (Ok ("category_id=" +:+ py_str category_id)) params;
  let url :=
    if py_bool report_id then
      api_root self +:+ "reports/" +:+ py_str report_id
    else if is_nonempty params then
      api_root self +:+ "reports?" +:+ String.concat "&" params
    else api_root self +:+ "reports" in
  let headers := with_content_type self "application/json" in
  prep ← lift (prepare (NewRequest "GET" url headers));
  resp ← _reqsend self prep (_triagehost self);
  _parse self (text resp).

(** [TriageSession.processed_reports]. *)
Definition processed_reports (self : TriageSession)
    (match_priority category_id start_date tags end_date page per_page : pyval)
  : M json_value :=
  check_credentials self;;
  check_param tags T_list ": tags parameter must be a list of strings";;
  check_param page T_int ": page parameter must be an integer";;
  check_param per_page T_int ": per_page parameter must be an integer";;
  check_param start_date T_str ": start_date parameter must be a string";;
  check_param end_date T_str ": end_date parameter must be a string";;
  check_param category_id T_int ": caterory_id parameter must be an integer";;
  check_param match_priority T_int ": match_priority parameter must be an integer";;
  params ← append_if tags (j ← py_join "," tags; Ok ("tags=" +:+ j)) [];
  params ← append_if page (Ok ("page=" +:+ py_str page)) params;
  params ← append_if per_page (Ok ("per_page=" +:+ py_str per_page)) params;
  params ← append_if start_date (str_add "start_date=" start_date) params;
  params ← append_if end_date (str_add "end_date=" end_date) params;
  params ← append_if category_id
             (Ok ("category_id=" +:+ py_str category_id)) params;
  params ← append_if match_priority
             (Ok ("match_priority=" +:+ py_str match_priority)) params;
  let url :=
    if is_nonempty params then
      api_root self +:+ "processed_reports?" +:+ String.concat "&" params
    else api_root self +:+ "processed_reports" in
  let headers := with_content_type self "application/json" in
  prep ← lift (prepare (NewRequest "GET" url headers));
  resp ← _reqsend self prep (_triagehost self);
  _parse self (text resp).

(** [TriageSession.inbox_reports]. *)
Definition inbox_reports (self : TriageSession)
    (match_priority start_date end_date page per_page : pyval) : M json_value :=
  check_credentials self;;
  check_param page T_int ": page parameter must be an integer";;
  check_param per_page T_int ": per_page parameter must be an integer";;
  check_param start_date T_str ": start_date parameter must be a string";;
  check_param end_date T_str ": end_date parameter must be a string";;
  check_param match_priority T_int ": match_priority parameter must be an integer";;
  params ← append_if page (Ok ("page=" +:+ py_str page)) [];
  params ← append_if per_page (Ok ("per_page=" +:+ py_str per_page)) params;
  params ← append_if start_date (str_add "start_date=" start_date) params;
  params ← append_if end_date (str_add "end_date=" end_date) params;
  params ← append_if match_priority
             (Ok ("match_priority=" +:+ py_str match_priority)) params;
  let url :=
    if is_nonempty params then
      api_root self +:+ "inbox_reports?" +:+ String.concat "&" params
    else api_root self +:+ "inbox_reports" in
  let headers := with_content_type self "application/json" in
  prep ← lift (prepare (NewRequest "GET" url headers));
  resp ← _reqsend self prep (_triagehost self);
  _parse self (text resp).

(** [TriageSession.attachment]: both parameters are required, and their
    checks have no truthiness guard. *)
Definition attachment (self : TriageSession) (attachment_id mime_type : pyval)
  : M (list Byte.byte) :=
  check_credentials self;;
  raise_if (negb (isinstance mime_type T_str)) TypeError
    (__name__ +:+ ": mime_type parameter must be a string");;
  raise_if (negb (isinstance attachment_id T_int)) TypeError
    (__name__ +:+ ": attachment_id parameter must be an integer");;
  let url := api_root self +:+ "attachment/" +:+ py_str attachment_id in
  let headers := with_content_type self (py_str mime_type) in
  prep ← lift (prepare (NewRequest "GET" url headers));
  resp ← _reqsend self prep (_triagehost self);
  mret (content resp).

(** [TriageSession.integration_search]: the query items are built before
    anything is checked, and the third parameter check tests [md5] again. *)
Definition integration_search (self : TriageSession)
    (sha256 md5 searchurl : pyval) : M json_value :=
  params ← append_if searchurl (str_add "searchurl=" searchurl) [];
  params ← append_if md5 (str_add "md5=" md5) params;
  params ← append_if sha256 (str_add "sha256=" sha256) params;
  check_credentials self;;
  check_param md5 T_str ": md5 parameter must be a string";;
  check_param searchurl T_str ": searchurl parameter must be a string";;
  check_param md5 T_str ": sha256 parameter must be a string";;
  raise_if (Nat.eqb (count_None [sha256; md5; searchurl]) 3) ValueError
    (__name__
     +:+ "Triage.integration_search takes exactly 1 argument. You gave none.");;
  let url := api_root self +:+ "integration_search?" +:+ String.concat "&" params in
  let headers := with_content_type self "application/json" in
  prep ← lift (prepare (NewRequest "GET" url headers));
  resp ← _reqsend self prep (_triagehost self);
  _parse self (text resp).

(** [TriageSession.clusters]; here [tags] is a single string. *)
Definition clusters (self : TriageSession)
    (match_priority start_date end_date page per_page tags : pyval)
  : M json_value :=
  check_credentials self;;
  check_param tags T_str ": tags parameter must be a string";;
  check_param page T_int ": page parameter must be an integer";;
  check_param per_page T_int ": per_page parameter must be an integer";;
  check_param start_date T_str ": start_date parameter must be a string";;
  check_param end_date T_str ": end_date parameter must be a string";;
  check_param match_priority T_int ": match_priority parameter must be an integer";;
  params ← append_if tags (str_add "tags=" tags) [];
  params ← append_if page (Ok ("page=" +:+ py_str page)) params;
  params ← append_if per_page (Ok ("per_page=" +:+ py_str per_page)) params;
  params ← append_if start_date (str_add "start_date=" start_date) params;
  params ← append_if end_date (str_add "end_date=" end_date) params;
  params ← append_if match_priority
             (Ok ("match_priority=" +:+ py_str match_priority)) params;
  let url :=
    if is_nonempty params then
      api_root self +:+ "clusters?" +:+ String.concat "&" params
    else api_root self +:+ "clusters" in
  let headers := with_content_type self "application/json" in
  prep ← lift (prepare (NewRequest "GET" url headers));
  resp ← _reqsend self prep (_triagehost self);
  _parse self (text resp).

End Client.

(** ** Calls as data *)

(** One constructor per public method, with the arguments in the order of
    the method's signature. *)
Inductive call : Type :=
| Reports (match_priority category_id start_date tags end_date page per_page
           report_id : pyval)
| ProcessedReports (match_priority category_id start_date tags end_date page
                    per_page : pyval)
| InboxReports (match_priority start_date end_date page per_page : pyval)
| Attachment (attachment_id mime_type : pyval)
| IntegrationSearch (sha256 md5 searchurl : pyval)
| Clusters (match_priority start_date end_date page per_page tags : pyval).

(** What a method returns: decoded JSON, or the raw body. *)
Inductive retval : Type :=
| RJson (j : json_value)
| RBytes (b : list Byte.byte).

Definition run (rt : Runtime) (self : TriageSession) (c : call) : M retval :=
  match c with
  | Reports mp cat sd tg ed pg pp rid =>
      j ← reports rt self mp cat sd tg ed pg pp rid; mret (RJson j)
  | ProcessedReports mp cat sd tg ed pg pp =>
      j ← processed_reports rt self mp cat sd tg ed pg pp; mret (RJson j)
  | InboxReports mp sd ed pg pp =>
      j ← inbox_reports rt self mp sd ed pg pp; mret (RJson j)
  | Attachment aid mt =>
      b ← attachment rt self aid mt; mret (RBytes b)
  | IntegrationSearch sha md su =>
      j ← integration_search rt self sha md su; mret (RJson j)
  | Clusters mp sd ed pg pp tg =>
      j ← clusters rt self mp sd ed pg pp tg; mret (RJson j)
  end.

Definition returns_json (c : call) : bool :=
  match c with Attachment _ _ => false | _ => true end.

(** The last part of every method: send, classify, handle the body. *)
Definition dispatch (rt : Runtime) (self : TriageSession) (c : call)
    (prep : PreparedRequest) : M retval :=
  resp ← _reqsend rt self prep (_triagehost self);
  if returns_json c then j ← _parse rt self (text resp); mret (RJson j)
  else mret (RBytes (content resp)).

(** What every method does with the request it has built: prepare it, and
    dispatch what the library made of it. *)
Definition submit (rt : Runtime) (self : TriageSession) (c : call)
    (req : Request) : M retval :=
  prep ← lift (prepare rt req);
  dispatch rt self c prep.

(** ** Describing a call's request *)

Definition endpoint (c : call) : string :=
  match c with
  | Reports _ _ _ _ _ _ _ _ => "reports"
  | ProcessedReports _ _ _ _ _ _ _ => "processed_reports"
  | InboxReports _ _ _ _ _ => "inbox_reports"
  | Attachment _ _ => "attachment"
  | IntegrationSearch _ _ _ => "integration_search"
  | Clusters _ _ _ _ _ _ => "clusters"
  end.

(** The query parameters of a call with their values, in the order in which
    the method's [params.append] statements are written. *)
Definition emitted_params (c : call) : list (string * pyval) :=
  match c with
  | Reports mp cat sd tg ed pg pp _ =>
      [("tags", tg); ("page", pg); ("per_page", pp); ("start_date", sd);
       ("end_date", ed); ("match_priority", mp); ("category_id", cat)]
  | ProcessedReports mp cat sd tg ed pg pp =>
      [("tags", tg); ("page", pg); ("per_page", pp); ("start_date", sd);
       ("end_date", ed); ("category_id", cat); ("match_priority", mp)]
  | InboxReports mp sd ed pg pp =>
      [("page", pg); ("per_page", pp); ("start_date", sd); ("end_date", ed);
       ("match_priority", mp)]
  | Attachment _ _ => []
  | IntegrationSearch sha md su =>
      [("searchurl", su); ("md5", md); ("sha256", sha)]
  | Clusters mp sd ed pg pp tg =>
      [("tags", tg); ("page", pg); ("per_page", pp); ("start_date", sd);
       ("end_date", ed); ("match_priority", mp)]
  end.

(** The same parameters in the order of the method's signature (for
    [reports]: match_priority, category_id, start_date, tags, end_date, page,
    per_page), which is the order the specification names. *)
Definition declared_params (c : call) : list (string * pyval) :=
  match c with
  | Reports mp cat sd tg ed pg pp _ =>
      [("match_priority", mp); ("category_id", cat); ("start_date", sd);
       ("tags", tg); ("end_date", ed); ("page", pg); ("per_page", pp)]
  | ProcessedReports mp cat sd tg ed pg pp =>
      [("match_priority", mp); ("category_id", cat); ("start_date", sd);
       ("tags", tg); ("end_date", ed); ("page", pg); ("per_page", pp)]
  | InboxReports mp sd ed pg pp =>
      [("match_priority", mp); ("start_date", sd); ("end_date", ed);
       ("page", pg); ("per_page", pp)]
  | Attachment _ _ => []
  | IntegrationSearch sha md su =>
      [("sha256", sha); ("md5", md); ("searchurl", su)]
  | Clusters mp sd ed pg pp tg =>
      [("match_priority", mp); ("start_date", sd); ("end_date", ed);
       ("page", pg); ("per_page", pp); ("tags", tg)]
  end.

(** The text of a value in a query item: a list is comma-joined, anything
    else is printed by [str]. *)
Definition render_value (rt : Runtime) (v : pyval) : string :=
  match v with
  | PList l => String.concat "," (map (py_str rt) l)
  | _ => py_str rt v
  end.

Definition query_item (rt : Runtime) (kv : string * pyval) : string :=
  fst kv +:+ "=" +:+ render_value rt (snd kv).

(** The [key=value] items of the truthy parameters of [ps], in the order
    of [ps]. *)
Definition query_items (rt : Runtime) (ps : list (string * pyval)) : list string :=
  map (query_item rt) (List.filter (fun kv => py_bool (snd kv)) ps).

(** The query string of the specification: the items joined with [&]. *)
Definition query_string (rt : Runtime) (ps : list (string * pyval)) : string :=
  String.concat "&" (query_items rt ps).

(** The list form of a URL: the endpoint, then [?] and the query when there
    is one. *)
Definition list_url (rt : Runtime) (self : TriageSession) (c : call)
    (ps : list (string * pyval)) : string :=
  if is_nonempty (query_items rt ps) then
    api_root rt self +:+ endpoint c +:+ "?" +:+ query_string rt ps
  else api_root rt self +:+ endpoint c.

(** The URL a call asks for, given the order of its query parameters. *)
Definition call_url (rt : Runtime) (self : TriageSession) (c : call)
    (ps : list (string * pyval)) : string :=
  match c with
  | Reports _ _ _ _ _ _ _ rid =>
      if py_bool rid then api_root rt self +:+ "reports/" +:+ py_str rt rid
      else list_url rt self c ps
  | Attachment aid _ => api_root rt self +:+ "attachment/" +:+ py_str rt aid
  | IntegrationSearch _ _ _ =>
      api_root rt self +:+ "integration_search?" +:+ query_string rt ps
  | _ => list_url rt self c ps
  end.

Definition content_type (rt : Runtime) (c : call) : string :=
  match c with
  | Attachment _ mt => py_str rt mt
  | _ => "application/json"
  end.

(** The request a call builds, given the order of its query parameters. *)
Definition request_with (order : call -> list (string * pyval))
    (rt : Runtime) (self : TriageSession) (c : call) : Request :=
  NewRequest "GET" (call_url rt self c (order c))
             (with_content_type self (content_type rt c)).

(** The request of a call. *)
Definition request_of (rt : Runtime) (self : TriageSession) (c : call)
  : Request :=
  request_with emitted_params rt self c.

(** ** Calls that pass the checks *)

Definition credentials_ok (self : TriageSession) : bool :=
  isinstance (_email self) T_str && isinstance (_apikey self) T_str.

(** Absent (falsy), or of the expected class. *)
Definition param_ok (v : pyval) (t : pytype) : bool :=
  negb (py_bool v) || isinstance v t.

(** Absent, or a list whose items are all strings. *)
Definition tags_ok (v : pyval) : bool :=
  negb (py_bool v) ||
  match v with
  | PList l => forallb (fun x => isinstance x T_str) l
  | _ => false
  end.

Definition args_ok (c : call) : bool :=
  match c with
  | Reports mp cat sd tg ed pg pp rid =>
      tags_ok tg && param_ok pg T_int && param_ok pp T_int && param_ok sd T_str
      && param_ok ed T_str && param_ok rid T_int && param_ok cat T_int
      && param_ok mp T_int
  | ProcessedReports mp cat sd tg ed pg pp =>
      tags_ok tg && param_ok pg T_int && param_ok pp T_int && param_ok sd T_str
      && param_ok ed T_str && param_ok cat T_int && param_ok mp T_int
  | InboxReports mp sd ed pg pp =>
      param_ok pg T_int && param_ok pp T_int && param_ok sd T_str
      && param_ok ed T_str && param_ok mp T_int
  | Attachment aid mt => isinstance mt T_str && isinstance aid T_int
  | IntegrationSearch sha md su =>
      param_ok su T_str && param_ok md T_str && param_ok sha T_str
      && negb (is_None sha && is_None md && is_None su)
  | Clusters mp sd ed pg pp tg =>
      param_ok tg T_str && param_ok pg T_int && param_ok pp T_int
      && param_ok sd T_str && param_ok ed T_str && param_ok mp T_int
  end.

(** The calls for which a request goes out. *)
Definition accepted (self : TriageSession) (c : call) : bool :=
  credentials_ok self && args_ok c.

(** ** Looking into strings *)

(** [sub in s]. *)
Fixpoint substringb (sub s : string) : bool :=
  String.prefix sub s ||
  match s with
  | EmptyString => false
  | String _ s' => substringb sub s'
  end.

(** Some item of [items] is the item of the parameter named [k]. *)
Definition has_key (k : string) (items : list string) : bool :=
  existsb (String.prefix (k +:+ "=")) items.

(** ** Statements about the query string *)

(** The parameters of a call that have a default value, in the order of the
    signature; both parameters of [attachment] are required. *)
Definition optional_params (c : call) : list (string * pyval) :=
  match c with
  | Reports _ _ _ _ _ _ _ rid => (declared_params c ++ [("report_id", rid)])%list
  | Attachment _ _ => []
  | _ => declared_params c
  end.

Definition all_absent (c : call) : bool :=
  forallb (fun kv => negb (py_bool (snd kv))) (optional_params c).

(** The calls whose URL is the endpoint followed by the query of the truthy
    parameters: [processed_reports], [inbox_reports] and [clusters] always,
    [reports] without a report id, and [integration_search] with at least
    one truthy argument. *)
Definition query_by_presence (c : call) : bool :=
  match c with
  | Reports _ _ _ _ _ _ _ rid => negb (py_bool rid)
  | ProcessedReports _ _ _ _ _ _ _ => true
  | InboxReports _ _ _ _ _ => true
  | Clusters _ _ _ _ _ _ => true
  | Attachment _ _ => false
  | IntegrationSearch sha md su => py_bool sha || py_bool md || py_bool su
  end.

(** The call does what handing the library a request with the query
    parameters in the order given by [order] does. *)
Definition query_follows (order : call -> list (string * pyval))
    (rt : Runtime) (self : TriageSession) (c : call)
    (w : list PreparedRequest) : Prop :=
  run rt self c w = submit rt self c (request_with order rt self c) w.

(** The URL made of the endpoint and, after a [?], the items of the truthy
    parameters of the call, and of nothing else; the bare endpoint when no
    parameter is truthy. *)
Definition url_by_presence (rt : Runtime) (self : TriageSession) (c : call)
  : string :=
  api_root rt self +:+ endpoint c
  +:+ (if is_nonempty (query_items rt (emitted_params c))
       then "?" +:+ String.concat "&" (query_items rt (emitted_params c))
       else EmptyString).

(** The call builds the URL [url_by_presence], in which an optional
    parameter has an item exactly when it is truthy, and raises nothing of
    its own. *)
Definition presence_by_truth (rt : Runtime) (self : TriageSession) (c : call)
    (w : list PreparedRequest) : Prop :=
  run rt self c w
  = submit rt self c
      (NewRequest "GET" (url_by_presence rt self c)
                  (with_content_type self (content_type rt c))) w
  /\ (forall k v, In (k, v) (optional_params c) ->
      has_key k (query_items rt (emitted_params c)) = py_bool v)
  /\ (all_absent c = true ->
      url_by_presence rt self c = api_root rt self +:+ endpoint c).

(** ** Statements about what is sent *)

Fixpoint ends_in_question_mark (s : string) : bool :=
  match s with
  | EmptyString => false
  | String c s' =>
      match s' with
      | EmptyString => Ascii.eqb c "?"
      | String _ _ => ends_in_question_mark s'
      end
  end.

(** The call sends a request whose URL ends in [?]. *)
Definition sends_bare_question_mark (rt : Runtime) (self : TriageSession)
    (c : call) (w : list PreparedRequest) : Prop :=
  exists req, snd (run rt self c w) = (w ++ [req])%list
              /\ ends_in_question_mark (url req) = true.

(** Whatever the call sends has the token of the session for its
    [Authorization] header. *)
Definition sends_token_authorization (rt : Runtime) (self : TriageSession)
    (c : call) (w : list PreparedRequest) : Prop :=
  forall req,
    snd (run rt self c w) = (w ++ [req])%list ->
    headers req !! "Authorization"
    = Some ("Token token=" +:+ py_str rt (_email self) +:+ ":"
            +:+ py_str rt (_apikey self)).

(** ** A runtime for examples *)

(** A network that gives the same answer to every request. *)
Definition canned_net (r : Response)
  : list PreparedRequest -> PreparedRequest -> send_result :=
  fun _ _ => Replied r.

(** A stand-in for [json.loads] that decodes the documents used in the
    examples below and rejects every other text. *)
Definition sample_loads (src : string) : option json_value :=
  if String.eqb src "null" then Some JNull
  else if String.eqb src "true" then Some (JBool true)
  else if String.eqb src "false" then Some (JBool false)
  else if String.eqb src "[]" then Some (JArr [])
  else if String.eqb src "{}" then Some (JObj [])
  else None.

Fixpoint without_last (s : string) : string :=
  match s with
  | EmptyString => EmptyString
  | String c s' =>
      match s' with
      | EmptyString => EmptyString
      | String _ _ => String c (without_last s')
      end
  end.

(** A stand-in for [prepare_url] that does to the URLs of the examples what
    the library does: it refuses a URL without a host, drops an empty query
    and keeps a plain lower-case URL as it is. *)
Definition sample_prepare_url (u : string) : result string :=
  if String.prefix "http:///" u || String.prefix "https:///" u then
    Raise (mkExc (ExternalError "InvalidURL")
             ("Invalid URL '" +:+ u +:+ "': No host supplied"))
  else if ends_in_question_mark u then Ok (without_last u)
  else Ok u.

(** A stand-in for the credentials [prepare_auth] finds in a URL: it knows
    the user [u] with password [p], whose Basic value is [Basic dTpw]; the
    other URLs of the examples carry no credentials. *)
Definition sample_url_auth (u : string) : option string :=
  if String.prefix "http://u:p@" u || String.prefix "https://u:p@" u
  then Some "Basic dTpw" else None.

(** The headers of the examples are all valid. *)
Definition sample_runtime (r : Response) : Runtime :=
  {| net := canned_net r; json_loads := sample_loads;
     obj_str := fun v => "<" +:+ type_name v +:+ " object>";
     prepare_url := sample_prepare_url;
     header_fault := fun _ => None;
     url_auth := sample_url_auth |}.

Definition ok_response : Response :=
  {| status_code := 200; text := "[]"; content := [] |}.

(** A 200 response whose body is not JSON. *)
Definition garbled_response : Response :=
  {| status_code := 200; text := "<html>"; content := [] |}.

Definition not_found_response : Response :=
  {| status_code := 404; text := "Not Found"; content := [] |}.

(** A 200 response with a four-byte body. *)
Definition pdf_response : Response :=
  {| status_code := 200; text := "%PDF";
     content := [Byte.x25; Byte.x50; Byte.x44; Byte.x46] |}.

(** [TriageSession('triage.example', 'me@example.org', 'k3y')]. *)
Definition sample_session : TriageSession :=
  {| _triagehost := PStr "triage.example";
     _usessl := true;
     _userag := "Python CoFense Triage Client";
     _email := PStr "me@example.org";
     _apikey := PStr "k3y";
     _headers :=
       <["Authorization" := "Token token=me@example.org:k3y"]>
       (<["user-agent" := "Python CoFense Triage Client"]>
       (<["VE-API-Version" := apiver]>
       (<["Accept" := "application/vnd.ve.v1.0+json"]> ∅))) |}.

(** ** Further notions used below *)

(** A falsy value replaced by [None]. *)
Definition absent_as_none (v : pyval) : pyval :=
  if py_bool v then v else PNone.

(** The same, for every argument of a call. *)
Definition absent_as_none_call (c : call) : call :=
  match c with
  | Reports mp cat sd tg ed pg pp rid =>
      Reports (absent_as_none mp) (absent_as_none cat) (absent_as_none sd)
              (absent_as_none tg) (absent_as_none ed) (absent_as_none pg)
              (absent_as_none pp) (absent_as_none rid)
  | ProcessedReports mp cat sd tg ed pg pp =>
      ProcessedReports (absent_as_none mp) (absent_as_none cat)
                       (absent_as_none sd) (absent_as_none tg)
                       (absent_as_none ed) (absent_as_none pg)
                       (absent_as_none pp)
  | InboxReports mp sd ed pg pp =>
      InboxReports (absent_as_none mp) (absent_as_none sd) (absent_as_none ed)
                   (absent_as_none pg) (absent_as_none pp)
  | Attachment aid mt => Attachment (absent_as_none aid) (absent_as_none mt)
  | IntegrationSearch sha md su =>
      IntegrationSearch (absent_as_none sha) (absent_as_none md)
                        (absent_as_none su)
  | Clusters mp sd ed pg pp tg =>
      Clusters (absent_as_none mp) (absent_as_none sd) (absent_as_none ed)
               (absent_as_none pg) (absent_as_none pp) (absent_as_none tg)
  end.

(** The methods all of whose parameters are optional filters. *)
Definition only_optional_filters (c : call) : bool :=
  match c with
  | Attachment _ _ => false
  | IntegrationSearch _ _ _ => false
  | _ => true
  end.

(** The one rejected call that ends in [ValueError]: [integration_search]
    with three [None]s on a session whose credentials are strings. *)
Definition no_search_argument (self : TriageSession) (c : call) : bool :=
  credentials_ok self &&
  match c with
  | IntegrationSearch sha md su => is_None sha && is_None md && is_None su
  | _ => false
  end.

(** A network on which every send fails with the same exception. *)
Definition failing_net (e : exc)
  : list PreparedRequest -> PreparedRequest -> send_result :=
  fun _ _ => SendFailed e.

Definition connection_refused : exc :=
  mkExc (ExternalError "ConnectionError") "connection refused".

Definition offline_runtime : Runtime :=
  {| net := failing_net connection_refused; json_loads := sample_loads;
     obj_str := fun v => "<" +:+ type_name v +:+ " object>";
     prepare_url := sample_prepare_url;
     header_fault := fun _ => None;
     url_auth := sample_url_auth |}.

(** [TriageSession('', 'me@example.org', 'k3y')]: no host. *)
Definition hostless_session : TriageSession :=
  {| _triagehost := PStr EmptyString;
     _usessl := true;
     _userag := "Python CoFense Triage Client";
     _email := PStr "me@example.org";
     _apikey := PStr "k3y";
     _headers :=
       <["Authorization" := "Token token=me@example.org:k3y"]>
       (<["user-agent" := "Python CoFense Triage Client"]>
       (<["VE-API-Version" := apiver]>
       (<["Accept" := "application/vnd.ve.v1.0+json"]> ∅))) |}.

(** [TriageSession('u:p@h', 'me@example.org', 'k3y')]: the host string
    carries a user and a password. *)
Definition userinfo_session : TriageSession :=
  {| _triagehost := PStr "u:p@h";
     _usessl := true;
     _userag := "Python CoFense Triage Client";
     _email := PStr "me@example.org";
     _apikey := PStr "k3y";
     _headers :=
       <["Authorization" := "Token token=me@example.org:k3y"]>
       (<["user-agent" := "Python CoFense Triage Client"]>
       (<["VE-API-Version" := apiver]>
       (<["Accept" := "application/vnd.ve.v1.0+json"]> ∅))) |}.

Definition unauthorized_response : Response :=
  {| status_code := 401; text := "Unauthorized"; content := [] |}.

Definition unavailable_response : Response :=
  {| status_code := 503; text := "Service Unavailable"; content := [] |}.

(** A 204 response: a success status other than 200. *)
Definition no_content_response : Response :=
  {| status_code := 204; text := EmptyString; content := [] |}.

(** * Properties *)

Section Properties.

Context (rt : Runtime).

(** ** Steps of the monad *)

Lemma raise_if_false (cls : exc_class) (msg : string) (w : list PreparedRequest) :
  raise_if false cls msg w = (Ok tt, w).
Proof. reflexivity. Qed.

Lemma raise_if_true (cls : exc_class) (msg : string) (w : list PreparedRequest) :
  raise_if true cls msg w = (Raise (mkExc cls msg), w).
Proof. reflexivity. Qed.

Lemma check_credentials_ok (s : TriageSession) (w : list PreparedRequest) :
  credentials_ok s = true -> check_credentials s w = (Ok tt, w).
Proof.
  unfold credentials_ok, check_credentials. intros H.
  apply andb_true_iff in H as [-> ->]. reflexivity.
Qed.

Lemma check_credentials_bad (s : TriageSession) (w : list PreparedRequest) :
  credentials_ok s = false ->
  exists e, check_credentials s w = (Raise e, w) /\ exc_cls e = TypeError.
Proof.
  unfold credentials_ok, check_credentials. intros H.
  destruct (isinstance (_email s) T_str); cbn [andb] in H.
  - rewrite H. eexists. split; reflexivity.
  - eexists. split; reflexivity.
Qed.

Lemma check_param_ok (v : pyval) (t : pytype) (msg : string)
    (w : list PreparedRequest) :
  param_ok v t = true -> check_param v t msg w = (Ok tt, w).
Proof.
  unfold param_ok, check_param. intros H.
  destruct (py_bool v), (isinstance v t); simpl in H; try discriminate;
    reflexivity.
Qed.

Lemma check_param_bad (v : pyval) (t : pytype) (msg : string)
    (w : list PreparedRequest) :
  param_ok v t = false ->
  check_param v t msg w = (Raise (mkExc TypeError (__name__ +:+ msg)), w).
Proof.
  unfold param_ok, check_param. intros H.
  destruct (py_bool v), (isinstance v t); simpl in H; try discriminate;
    reflexivity.
Qed.

(** ** Rendering *)

Lemma isinstance_str_inv (v : pyval) :
  isinstance v T_str = true -> exists s, v = PStr s.
Proof. destruct v; simpl; try discriminate. eauto. Qed.

Lemma join_items_strings (l : list pyval) (i : nat) :
  forallb (fun x => isinstance x T_str) l = true ->
  join_items i l = Ok (map (py_str rt) l).
Proof.
  revert i. induction l as [|v l IH]; intros i H; simpl in *.
  - reflexivity.
  - apply andb_true_iff in H as [Hv Hl].
    apply isinstance_str_inv in Hv as [s ->].
    rewrite (IH (S i) Hl). reflexivity.
Qed.

Lemma join_items_not_strings (l : list pyval) (i : nat) :
  forallb (fun x => isinstance x T_str) l = false ->
  exists e, join_items i l = Raise e /\ exc_cls e = TypeError.
Proof.
  revert i. induction l as [|v l IH]; intros i H; simpl in *.
  - discriminate.
  - destruct v; simpl in H; try (eexists; split; reflexivity).
    destruct (IH (S i) H) as [e [-> He]]. eauto.
Qed.

Lemma query_items_cons (k : string) (v : pyval) (ps : list (string * pyval)) :
  query_items rt ((k, v) :: ps) =
  ((if py_bool v then [k +:+ "=" +:+ render_value rt v] else [])
   ++ query_items rt ps)%list.
Proof. unfold query_items. simpl. destruct (py_bool v); reflexivity. Qed.

Lemma query_items_nil : query_items rt [] = [].
Proof. reflexivity. Qed.

(** ** [params.append] under each kind of check *)

Lemma append_if_str (a : string) (v : pyval) (ps : list string)
    (w : list PreparedRequest) :
  param_ok v T_str = true ->
  append_if v (str_add a v) ps w =
  (Ok (ps ++ (if py_bool v then [a +:+ render_value rt v] else []))%list, w).
Proof.
  unfold param_ok, append_if. intros H. destruct (py_bool v) eqn:Hb; simpl in H.
  - apply isinstance_str_inv in H as [s ->]. reflexivity.
  - rewrite app_nil_r. reflexivity.
Qed.

Lemma append_if_str_bad (a : string) (v : pyval) (ps : list string)
    (w : list PreparedRequest) :
  param_ok v T_str = false ->
  exists e, append_if v (str_add a v) ps w = (Raise e, w) /\ exc_cls e = TypeError.
Proof.
  unfold param_ok, append_if. intros H. destruct (py_bool v) eqn:Hb; simpl in H.
  - destruct v; simpl in H; try discriminate; eexists; split; reflexivity.
  - discriminate.
Qed.

Lemma append_if_int (a : string) (v : pyval) (ps : list string)
    (w : list PreparedRequest) :
  param_ok v T_int = true ->
  append_if v (Ok (a +:+ py_str rt v)) ps w =
  (Ok (ps ++ (if py_bool v then [a +:+ render_value rt v] else []))%list, w).
Proof.
  unfold param_ok, append_if. intros H. destruct (py_bool v) eqn:Hb; simpl in H.
  - destruct v; simpl in H; try discriminate; reflexivity.
  - rewrite app_nil_r. reflexivity.
Qed.

Lemma append_if_tags (a : string) (v : pyval) (ps : list string)
    (w : list PreparedRequest) :
  tags_ok v = true ->
  append_if v (j ← py_join "," v; Ok (a +:+ j)) ps w =
  (Ok (ps ++ (if py_bool v then [a +:+ render_value rt v] else []))%list, w).
Proof.
  unfold tags_ok, append_if. intros H. destruct (py_bool v) eqn:Hb; simpl in H.
  - destruct v; try discriminate.
    unfold py_join, str_join, lift. rewrite (join_items_strings _ _ H).
    reflexivity.
  - rewrite app_nil_r. reflexivity.
Qed.

Lemma append_if_tags_bad (a : string) (v : pyval) (ps : list string)
    (w : list PreparedRequest) :
  param_ok v T_list = true -> tags_ok v = false ->
  exists e, append_if v (j ← py_join "," v; Ok (a +:+ j)) ps w = (Raise e, w)
            /\ exc_cls e = TypeError.
Proof.
  unfold param_ok, tags_ok, append_if. intros Hp H.
  destruct (py_bool v) eqn:Hb; simpl in *; try discriminate.
  destruct v; try discriminate.
  unfold py_join, str_join, lift.
  destruct (join_items_not_strings _ 0 H) as [e [-> He]]. eauto.
Qed.

Lemma tags_ok_list (v : pyval) : tags_ok v = true -> param_ok v T_list = true.
Proof.
  unfold tags_ok, param_ok. destruct (py_bool v); simpl; [|reflexivity].
  destruct v; simpl; congruence.
Qed.

Lemma count_None_3 (a b c : pyval) :
  Nat.eqb (count_None [a; b; c]) 3 = is_None a && is_None b && is_None c.
Proof.
  unfold count_None. simpl.
  destruct (is_None a), (is_None b), (is_None c); reflexivity.
Qed.

Lemma bind_ok {A B : Type} (m : M A) (f : A -> M B) (w w' : list PreparedRequest)
    (a : A) :
  m w = (Ok a, w') -> (m ≫= f) w = f a w'.
Proof. intros H. unfold mbind, M_bind. rewrite H. reflexivity. Qed.

Lemma bind_raise {A B : Type} (m : M A) (f : A -> M B)
    (w w' : list PreparedRequest) (e : exc) :
  m w = (Raise e, w') -> (m ≫= f) w = (Raise e, w').
Proof. intros H. unfold mbind, M_bind. rewrite H. reflexivity. Qed.

Lemma bind_assoc {A B C : Type} (m : M A) (f : A -> M B) (g : B -> M C)
    (w : list PreparedRequest) :
  ((m ≫= f) ≫= g) w = (m ≫= (fun a => f a ≫= g)) w.
Proof.
  unfold mbind, M_bind. destruct (m w) as [[a|e] w']; reflexivity.
Qed.

(** One statement of a method whose check passes. *)
Ltac pass :=
  erewrite bind_ok by
    (first [ apply check_credentials_ok | apply check_param_ok
           | apply append_if_str | apply append_if_int | apply append_if_tags
           | apply raise_if_false ];
     first [ assumption | apply tags_ok_list; assumption ]);
  cbv beta.

(** Collect the conjuncts of a boolean hypothesis. *)
Ltac split_andb :=
  repeat match goal with
         | H : _ && _ = true |- _ => apply andb_true_iff in H; destruct H
         end.

Lemma reports_accepted (s : TriageSession)
    (mp cat sd tg ed pg pp rid : pyval) (w : list PreparedRequest) :
  accepted s (Reports mp cat sd tg ed pg pp rid) = true ->
  reports rt s mp cat sd tg ed pg pp rid w =
  (prep ← lift (prepare rt (request_of rt s (Reports mp cat sd tg ed pg pp rid)));
   resp ← _reqsend rt s prep (_triagehost s);
   _parse rt s (text resp)) w.
Proof.
  unfold accepted, args_ok. intros H. split_andb.
  unfold reports. do 16 pass.
  unfold request_of, request_with, call_url, list_url, query_string,
    emitted_params.
  rewrite !query_items_cons, query_items_nil, ?app_nil_r, <- ?app_assoc.
  cbn [app]. reflexivity.
Qed.

Lemma processed_reports_accepted (s : TriageSession)
    (mp cat sd tg ed pg pp : pyval) (w : list PreparedRequest) :
  accepted s (ProcessedReports mp cat sd tg ed pg pp) = true ->
  processed_reports rt s mp cat sd tg ed pg pp w =
  (prep ← lift (prepare rt (request_of rt s (ProcessedReports mp cat sd tg ed pg pp)));
   resp ← _reqsend rt s prep (_triagehost s);
   _parse rt s (text resp)) w.
Proof.
  unfold accepted, args_ok. intros H. split_andb.
  unfold processed_reports. do 15 pass.
  unfold request_of, request_with, call_url, list_url, query_string,
    emitted_params.
  rewrite !query_items_cons, query_items_nil, ?app_nil_r, <- ?app_assoc.
  cbn [app]. reflexivity.
Qed.

Lemma inbox_reports_accepted (s : TriageSession)
    (mp sd ed pg pp : pyval) (w : list PreparedRequest) :
  accepted s (InboxReports mp sd ed pg pp) = true ->
  inbox_reports rt s mp sd ed pg pp w =
  (prep ← lift (prepare rt (request_of rt s (InboxReports mp sd ed pg pp)));
   resp ← _reqsend rt s prep (_triagehost s);
   _parse rt s (text resp)) w.
Proof.
  unfold accepted, args_ok. intros H. split_andb.
  unfold inbox_reports. do 11 pass.
  unfold request_of, request_with, call_url, list_url, query_string,
    emitted_params.
  rewrite !query_items_cons, query_items_nil, ?app_nil_r, <- ?app_assoc.
  cbn [app]. reflexivity.
Qed.

Lemma clusters_accepted (s : TriageSession)
    (mp sd ed pg pp tg : pyval) (w : list PreparedRequest) :
  accepted s (Clusters mp sd ed pg pp tg) = true ->
  clusters rt s mp sd ed pg pp tg w =
  (prep ← lift (prepare rt (request_of rt s (Clusters mp sd ed pg pp tg)));
   resp ← _reqsend rt s prep (_triagehost s);
   _parse rt s (text resp)) w.
Proof.
  unfold accepted, args_ok. intros H. split_andb.
  unfold clusters. do 13 pass.
  unfold request_of, request_with, call_url, list_url, query_string,
    emitted_params.
  rewrite !query_items_cons, query_items_nil, ?app_nil_r, <- ?app_assoc.
  cbn [app]. reflexivity.
Qed.

Lemma integration_search_accepted (s : TriageSession)
    (sha md su : pyval) (w : list PreparedRequest) :
  accepted s (IntegrationSearch sha md su) = true ->
  integration_search rt s sha md su w =
  (prep ← lift (prepare rt (request_of rt s (IntegrationSearch sha md su)));
   resp ← _reqsend rt s prep (_triagehost s);
   _parse rt s (text resp)) w.
Proof.
  unfold accepted, args_ok. intros H. split_andb.
  unfold integration_search. do 7 pass.
  rewrite count_None_3.
  match goal with H : negb ?b = true |- _ => apply negb_true_iff in H; rewrite H end.
  pass.
  unfold request_of, request_with, call_url, query_string, emitted_params.
  rewrite !query_items_cons, query_items_nil, ?app_nil_r, <- ?app_assoc.
  cbn [app]. reflexivity.
Qed.

Lemma attachment_accepted (s : TriageSession) (aid mt : pyval)
    (w : list PreparedRequest) :
  accepted s (Attachment aid mt) = true ->
  attachment rt s aid mt w =
  (prep ← lift (prepare rt (request_of rt s (Attachment aid mt)));
   resp ← _reqsend rt s prep (_triagehost s);
   mret (content resp)) w.
Proof.
  unfold accepted, args_ok. intros H. split_andb.
  unfold attachment. pass.
  repeat match goal with H : isinstance _ _ = true |- _ => rewrite H; clear H end.
  cbn [negb]. do 2 pass. reflexivity.
Qed.

(** ** Calls that fail a check stop before the network *)

Ltac stop_here :=
  first
    [ erewrite bind_raise by (apply check_param_bad; assumption);
      eexists; split; [reflexivity | left; reflexivity]
    | match goal with
      | |- exists _, (?m ≫= _) ?w = _ /\ _ =>
          let e := fresh "e" in
          let He := fresh "He" in
          let Hc := fresh "Hc" in
          assert (exists e, m w = (Raise e, w) /\ exc_cls e = TypeError)
            as [e [He Hc]]
            by (first [ apply check_credentials_bad | apply append_if_str_bad
                      | apply append_if_tags_bad ]; assumption);
          erewrite bind_raise by exact He;
          exists e; split; [reflexivity | left; exact Hc]
      end ].

Ltac condition_of m :=
  lazymatch m with
  | check_credentials ?s => constr:(credentials_ok s)
  | check_param ?v ?t _ => constr:(param_ok v t)
  | append_if ?v (str_add _ _) _ => constr:(param_ok v T_str)
  | append_if ?v (mbind _ _) _ => constr:(tags_ok v)
  end.

(** One statement of a method: it passes, or the method stops there. *)
Ltac advance :=
  first
    [ pass
    | match goal with
      | |- exists _, (?m ≫= _) _ = _ /\ _ =>
          let c := condition_of m in
          destruct c eqn:?; [ pass | stop_here ]
      end ].

(** Every check passed, so the call was accepted after all. *)
Ltac all_passed H :=
  exfalso; revert H; unfold accepted, args_ok;
  repeat match goal with
         | Hx : _ = true |- _ => rewrite Hx; clear Hx
         | Hx : _ = false |- _ => rewrite Hx; clear Hx
         end;
  discriminate.

Lemma reports_rejected (s : TriageSession)
    (mp cat sd tg ed pg pp rid : pyval) (w : list PreparedRequest) :
  accepted s (Reports mp cat sd tg ed pg pp rid) = false ->
  exists e, reports rt s mp cat sd tg ed pg pp rid w = (Raise e, w)
            /\ (exc_cls e = TypeError \/ exc_cls e = ValueError).
Proof.
  intros H. unfold reports. do 16 (try advance). all_passed H.
Qed.

Lemma processed_reports_rejected (s : TriageSession)
    (mp cat sd tg ed pg pp : pyval) (w : list PreparedRequest) :
  accepted s (ProcessedReports mp cat sd tg ed pg pp) = false ->
  exists e, processed_reports rt s mp cat sd tg ed pg pp w = (Raise e, w)
            /\ (exc_cls e = TypeError \/ exc_cls e = ValueError).
Proof.
  intros H. unfold processed_reports. do 15 (try advance). all_passed H.
Qed.

Lemma inbox_reports_rejected (s : TriageSession)
    (mp sd ed pg pp : pyval) (w : list PreparedRequest) :
  accepted s (InboxReports mp sd ed pg pp) = false ->
  exists e, inbox_reports rt s mp sd ed pg pp w = (Raise e, w)
            /\ (exc_cls e = TypeError \/ exc_cls e = ValueError).
Proof.
  intros H. unfold inbox_reports. do 11 (try advance). all_passed H.
Qed.

Lemma clusters_rejected (s : TriageSession)
    (mp sd ed pg pp tg : pyval) (w : list PreparedRequest) :
  accepted s (Clusters mp sd ed pg pp tg) = false ->
  exists e, clusters rt s mp sd ed pg pp tg w = (Raise e, w)
            /\ (exc_cls e = TypeError \/ exc_cls e = ValueError).
Proof.
  intros H. unfold clusters. do 13 (try advance). all_passed H.
Qed.

Lemma integration_search_rejected (s : TriageSession)
    (sha md su : pyval) (w : list PreparedRequest) :
  accepted s (IntegrationSearch sha md su) = false ->
  exists e, integration_search rt s sha md su w = (Raise e, w)
            /\ (exc_cls e = TypeError \/ exc_cls e = ValueError).
Proof.
  intros H. unfold integration_search. do 7 (try advance).
  rewrite count_None_3.
  destruct (is_None sha && is_None md && is_None su) eqn:Hnone.
  - erewrite bind_raise by apply raise_if_true.
    eexists. split; [reflexivity | right; reflexivity].
  - all_passed H.
Qed.

Lemma attachment_rejected (s : TriageSession) (aid mt : pyval)
    (w : list PreparedRequest) :
  accepted s (Attachment aid mt) = false ->
  exists e, attachment rt s aid mt w = (Raise e, w)
            /\ (exc_cls e = TypeError \/ exc_cls e = ValueError).
Proof.
  intros H. unfold attachment. advance.
  destruct (isinstance mt T_str) eqn:Hmt; cbn [negb].
  - pass. destruct (isinstance aid T_int) eqn:Haid; cbn [negb].
    + all_passed H.
    + erewrite bind_raise by apply raise_if_true.
      eexists. split; [reflexivity | left; reflexivity].
  - erewrite bind_raise by apply raise_if_true.
    eexists. split; [reflexivity | left; reflexivity].
Qed.

(** ** The two ways a call can go *)

Lemma bind_congr {A B : Type} (m m' : M A) (f : A -> M B)
    (w : list PreparedRequest) :
  m w = m' w -> (m ≫= f) w = (m' ≫= f) w.
Proof. intros H. unfold mbind, M_bind. rewrite H. reflexivity. Qed.

Lemma submit_after {A : Type} (s : TriageSession) (c : call) (req : Request)
    (m : M A) (k : PreparedRequest -> M A) (g : A -> M retval)
    (w : list PreparedRequest) :
  m w = (prep ← lift (prepare rt req); k prep) w ->
  (forall prep w', (k prep ≫= g) w' = dispatch rt s c prep w') ->
  (m ≫= g) w = submit rt s c req w.
Proof.
  intros Hm Hk. unfold submit.
  unfold mbind, M_bind in *. rewrite Hm. unfold lift.
  destruct (prepare rt req) as [prep|e]; [apply Hk | reflexivity].
Qed.

(** An accepted call is the submission of its request. *)
Lemma run_accepted (s : TriageSession) (c : call) (w : list PreparedRequest) :
  accepted s c = true ->
  run rt s c w = submit rt s c (request_of rt s c) w.
Proof.
  intros H. destruct c; unfold run.
  - eapply submit_after; [apply reports_accepted; exact H|].
    intros prep w'. apply bind_assoc.
  - eapply submit_after; [apply processed_reports_accepted; exact H|].
    intros prep w'. apply bind_assoc.
  - eapply submit_after; [apply inbox_reports_accepted; exact H|].
    intros prep w'. apply bind_assoc.
  - eapply submit_after; [apply attachment_accepted; exact H|].
    intros prep w'. cbv beta. rewrite bind_assoc. reflexivity.
  - eapply submit_after; [apply integration_search_accepted; exact H|].
    intros prep w'. apply bind_assoc.
  - eapply submit_after; [apply clusters_accepted; exact H|].
    intros prep w'. apply bind_assoc.
Qed.

(** A call that is not accepted raises [TypeError] or [ValueError] and
    leaves the log of sent requests as it was. *)
Lemma run_rejected (s : TriageSession) (c : call) (w : list PreparedRequest) :
  accepted s c = false ->
  exists e, run rt s c w = (Raise e, w)
            /\ (exc_cls e = TypeError \/ exc_cls e = ValueError).
Proof.
  intros H.
  assert (exists e,
    match c with
    | Reports mp cat sd tg ed pg pp rid =>
        reports rt s mp cat sd tg ed pg pp rid w = (Raise e, w)
    | ProcessedReports mp cat sd tg ed pg pp =>
        processed_reports rt s mp cat sd tg ed pg pp w = (Raise e, w)
    | InboxReports mp sd ed pg pp =>
        inbox_reports rt s mp sd ed pg pp w = (Raise e, w)
    | Attachment aid mt => attachment rt s aid mt w = (Raise e, w)
    | IntegrationSearch sha md su =>
        integration_search rt s sha md su w = (Raise e, w)
    | Clusters mp sd ed pg pp tg =>
        clusters rt s mp sd ed pg pp tg w = (Raise e, w)
    end /\ (exc_cls e = TypeError \/ exc_cls e = ValueError)) as [e [He Hc]].
  { destruct c;
      [ apply reports_rejected | apply processed_reports_rejected
      | apply inbox_reports_rejected | apply attachment_rejected
      | apply integration_search_rejected | apply clusters_rejected ];
      exact H. }
  exists e. split; [|exact Hc].
  destruct c; unfold run; erewrite bind_raise by exact He; reflexivity.
Qed.

(** ** What [_reqsend] does to the log *)

Lemma reqsend_log (s : TriageSession) (prep : PreparedRequest) (host : pyval)
    (w : list PreparedRequest) :
  snd (_reqsend rt s prep host w) = (w ++ [prep])%list.
Proof.
  unfold _reqsend, send, mbind, M_bind, raise_if.
  destruct (net rt w prep) as [resp|e]; [|reflexivity].
  destruct (status_code resp =? 401)%Z; [reflexivity|]. cbn.
  destruct (negb (status_code resp =? 200)%Z); [|reflexivity].
  destruct ((400 <=? status_code resp) && (status_code resp <? 500))%Z;
    [reflexivity|].
  destruct ((500 <=? status_code resp) && (status_code resp <? 600))%Z;
    reflexivity.
Qed.

Lemma parse_log (s : TriageSession) (src : string) (w : list PreparedRequest) :
  snd (_parse rt s src w) = w.
Proof. unfold _parse. destruct (json_loads rt src); reflexivity. Qed.

(** A dispatched request is the one new entry of the log. *)
Lemma dispatch_log (s : TriageSession) (c : call) (prep : PreparedRequest)
    (w : list PreparedRequest) :
  snd (dispatch rt s c prep w) = (w ++ [prep])%list.
Proof.
  unfold dispatch, mbind at 1, M_bind at 1.
  pose proof (reqsend_log s prep (_triagehost s) w) as Hlog.
  destruct (_reqsend rt s prep (_triagehost s) w) as [[resp|e] w']; simpl in Hlog;
    subst w'; [|reflexivity].
  destruct (returns_json c); [|reflexivity].
  unfold mbind, M_bind.
  pose proof (parse_log s (text resp) (w ++ [prep])%list) as Hp.
  destruct (_parse rt s (text resp) (w ++ [prep])%list) as [[j|e] w']; simpl in Hp;
    subst w'; reflexivity.
Qed.

Lemma log_grows_ne (w : list PreparedRequest) (req : PreparedRequest) :
  w <> (w ++ [req])%list.
Proof.
  intros H. apply (f_equal (@length _)) in H.
  rewrite length_app in H. simpl in H. lia.
Qed.

(** A submitted request is sent when the library prepares it, and only
    then. *)
Lemma submit_log (s : TriageSession) (c : call) (req : Request)
    (w : list PreparedRequest) :
  snd (submit rt s c req w)
  = match prepare rt req with
    | Ok prep => (w ++ [prep])%list
    | Raise _ => w
    end.
Proof.
  unfold submit, lift, mbind at 1, M_bind at 1.
  destruct (prepare rt req) as [prep|e]; [apply dispatch_log | reflexivity].
Qed.

Lemma submit_prepared (s : TriageSession) (c : call) (req : Request)
    (prep : PreparedRequest) (w : list PreparedRequest) :
  prepare rt req = Ok prep ->
  submit rt s c req w = dispatch rt s c prep w.
Proof.
  intros H. unfold submit, lift, mbind at 1, M_bind at 1. rewrite H.
  reflexivity.
Qed.

Lemma submit_refused (s : TriageSession) (c : call) (req : Request) (e : exc)
    (w : list PreparedRequest) :
  prepare rt req = Raise e ->
  submit rt s c req w = (Raise e, w).
Proof.
  intros H. unfold submit, lift, mbind at 1, M_bind at 1. rewrite H.
  reflexivity.
Qed.

(** A call put a request on the log exactly when it was accepted and the
    library prepared its request; what is on the log is the prepared
    request. *)
Lemma run_sent_inv (s : TriageSession) (c : call) (w : list PreparedRequest)
    (req : PreparedRequest) :
  snd (run rt s c w) = (w ++ [req])%list ->
  accepted s c = true /\ prepare rt (request_of rt s c) = Ok req.
Proof.
  intros H. destruct (accepted s c) eqn:Hacc.
  - split; [reflexivity|].
    rewrite (run_accepted _ _ _ Hacc), submit_log in H.
    destruct (prepare rt (request_of rt s c)) as [prep|e].
    + apply app_inv_head in H. congruence.
    + destruct (log_grows_ne _ _ H).
  - destruct (run_rejected _ c w Hacc) as [e [He _]].
    rewrite He in H. simpl in H. destruct (log_grows_ne _ _ H).
Qed.

Lemma run_sent (s : TriageSession) (c : call) (w : list PreparedRequest)
    (prep : PreparedRequest) :
  accepted s c = true ->
  prepare rt (request_of rt s c) = Ok prep ->
  snd (run rt s c w) = (w ++ [prep])%list.
Proof.
  intros H Hp. rewrite (run_accepted _ _ _ H), submit_log, Hp. reflexivity.
Qed.

(** An accepted call whose request is prepared is the dispatch of the
    prepared request. *)
Lemma run_dispatch (s : TriageSession) (c : call) (w : list PreparedRequest)
    (prep : PreparedRequest) :
  accepted s c = true ->
  prepare rt (request_of rt s c) = Ok prep ->
  run rt s c w = dispatch rt s c prep w.
Proof.
  intros H Hp. rewrite (run_accepted _ _ _ H). apply submit_prepared, Hp.
Qed.

(** What [prepare] keeps. *)
Lemma prepare_inv (req : Request) (prep : PreparedRequest) :
  prepare rt req = Ok prep ->
  method prep = req_method req
  /\ prepare_url rt (req_url req) = Ok (url prep)
  /\ header_fault rt (req_headers req) = None
  /\ headers prep
     = match url_auth rt (url prep) with
       | Some basic => <["Authorization" := basic]> (req_headers req)
       | None => req_headers req
       end.
Proof.
  unfold prepare. intros H.
  destruct (prepare_url rt (req_url req)) as [u|e]; [|discriminate H].
  destruct (header_fault rt (req_headers req)) as [e|]; [discriminate H|].
  injection H as <-. repeat split; reflexivity.
Qed.

Lemma prepared_header (req : Request) (prep : PreparedRequest) (k : string) :
  prepare rt req = Ok prep ->
  k <> "Authorization" ->
  headers prep !! k = req_headers req !! k.
Proof.
  intros H Hk. apply prepare_inv in H as (_ & _ & _ & ->).
  destruct (url_auth rt (url prep)); [|reflexivity].
  apply lookup_insert_ne. congruence.
Qed.

(** ** Facts about strings *)

Lemma prefix_nil (s : string) : String.prefix EmptyString s = true.
Proof. destruct s; reflexivity. Qed.

Lemma prefix_app (a b : string) : String.prefix a (a +:+ b) = true.
Proof.
  induction a as [|c a IH]; simpl.
  - apply prefix_nil.
  - destruct (ascii_dec c c); [exact IH | congruence].
Qed.

Lemma substringb_prefix (sub s : string) :
  String.prefix sub s = true -> substringb sub s = true.
Proof. intros H. destruct s; cbn [substringb]; rewrite H; reflexivity. Qed.

Lemma substringb_app (a sub b : string) :
  substringb sub (a +:+ sub +:+ b) = true.
Proof.
  induction a as [|c a IH].
  - change (EmptyString +:+ sub +:+ b) with (sub +:+ b).
    apply substringb_prefix, prefix_app.
  - change (String c a +:+ sub +:+ b) with (String c (a +:+ sub +:+ b)).
    cbn [substringb]. rewrite IH. apply orb_true_r.
Qed.

Lemma digits_no_question_mark (d : uint) :
  substringb "?" (NilEmpty.string_of_uint d) = false.
Proof. induction d; simpl; auto. Qed.

Lemma nat_digits_no_question_mark (d : uint) :
  substringb "?" (NilZero.string_of_uint d) = false.
Proof. destruct d; try reflexivity; apply digits_no_question_mark. Qed.

Lemma str_of_Z_no_question_mark (z : Z) : substringb "?" (str_of_Z z) = false.
Proof.
  unfold str_of_Z, NilZero.string_of_int.
  destruct (Z.to_int z) as [d|d].
  - apply nat_digits_no_question_mark.
  - cbn [substringb]. rewrite nat_digits_no_question_mark. reflexivity.
Qed.

Lemma int_str_no_question_mark (v : pyval) :
  isinstance v T_int = true -> substringb "?" (py_str rt v) = false.
Proof.
  destruct v as [| [] | z | | |]; simpl; try discriminate; intros _;
    first [ reflexivity | apply str_of_Z_no_question_mark ].
Qed.

Lemma prefix_app_app (a b c : string) :
  String.prefix a ((a +:+ b) +:+ c) = true.
Proof.
  induction a as [|x a IH]; simpl.
  - apply prefix_nil.
  - destruct (ascii_dec x x); [exact IH | congruence].
Qed.

Lemma api_root_scheme (s : TriageSession) :
  api_root rt s =
  (if _usessl s then "https://" else "http://")
  +:+ py_str rt (_triagehost s) +:+ "/api/public/v1/".
Proof. unfold api_root. destruct (_usessl s); reflexivity. Qed.

Lemma call_url_root (s : TriageSession) (c : call) (ps : list (string * pyval)) :
  exists tail, call_url rt s c ps = api_root rt s +:+ tail.
Proof.
  destruct c; unfold call_url, list_url;
    repeat match goal with |- context [if ?b then _ else _] => destruct b end;
    eexists; reflexivity.
Qed.

Lemma call_url_scheme (s : TriageSession) (c : call) (ps : list (string * pyval)) :
  String.prefix (if _usessl s then "https://" else "http://")
                (call_url rt s c ps) = true.
Proof.
  destruct (call_url_root s c ps) as [tail ->].
  rewrite api_root_scheme. apply prefix_app_app.
Qed.

Lemma has_key_cons (k k' : string) (v' : pyval) (ps : list (string * pyval)) :
  has_key k (query_items rt ((k', v') :: ps)) =
  (py_bool v' && String.prefix (k +:+ "=") (k' +:+ "=" +:+ render_value rt v'))
  || has_key k (query_items rt ps).
Proof.
  rewrite query_items_cons. unfold has_key.
  destruct (py_bool v'); reflexivity.
Qed.

(** Decide each comparison of a key with the head of an item. *)
Ltac compare_keys :=
  repeat match goal with
         | |- context [String.prefix ?a ?b] =>
             first [ replace (String.prefix a b) with false by reflexivity
                   | replace (String.prefix a b) with true
                       by (symmetry; apply (prefix_app a)) ]
         end;
  rewrite ?andb_false_r, ?andb_true_r, ?orb_false_r, ?orb_false_l.

(** * The claims *)

(** C1. For a completed HTTP response, [_reqsend] maps the status code to
    one outcome: 200 returns the response for body handling, 401 raises
    [TriageAuthError], any other status in 400-499 raises
    [TriageClientError], a status in 500-599 raises [TriageServerError] and
    every other status raises the base class [TriageError] itself; whatever
    is raised is a subclass of [TriageError]. *)
Theorem reqsend_classifies_status (s : TriageSession) (prep : PreparedRequest)
    (host : pyval) (w : list PreparedRequest) (resp : Response) :
  net rt w prep = Replied resp ->
  (status_code resp = 200 -> fst (_reqsend rt s prep host w) = Ok resp)
  /\ (status_code resp = 401 ->
      exists msg,
        fst (_reqsend rt s prep host w) = Raise (mkExc TriageAuthError msg))
  /\ (400 <= status_code resp < 500 -> status_code resp <> 401 ->
      exists msg,
        fst (_reqsend rt s prep host w) = Raise (mkExc TriageClientError msg))
  /\ (500 <= status_code resp < 600 ->
      exists msg,
        fst (_reqsend rt s prep host w) = Raise (mkExc TriageServerError msg))
  /\ (status_code resp <> 200 -> ~ (400 <= status_code resp < 600) ->
      exists msg,
        fst (_reqsend rt s prep host w) = Raise (mkExc TriageError msg))
  /\ (forall e, fst (_reqsend rt s prep host w) = Raise e ->
      issubclass (exc_cls e) TriageError = true).
Proof.
  intros Hnet.
  unfold _reqsend, send, mbind, M_bind, raise_if. rewrite Hnet.
  destruct (Z.eqb_spec (status_code resp) 401) as [E401|N401]; cbn.
  { rewrite E401. repeat split; intros; try lia; eauto.
    match goal with H : Raise _ = Raise _ |- _ => inversion H end. reflexivity. }
  destruct (Z.eqb_spec (status_code resp) 200) as [E200|N200]; cbn.
  { rewrite E200. repeat split; intros; try lia; try discriminate. }
  destruct (Z.leb_spec 400 (status_code resp)),
           (Z.ltb_spec (status_code resp) 500); cbn;
    try (repeat split; intros; try lia; eauto;
         match goal with H : Raise _ = Raise _ |- _ => inversion H end;
         reflexivity);
    destruct (Z.leb_spec 500 (status_code resp)),
             (Z.ltb_spec (status_code resp) 600); cbn;
    repeat split; intros; try lia; eauto;
    match goal with H : Raise _ = Raise _ |- _ => inversion H end;
    reflexivity.
Qed.

(** C5. A call to [reports] with a truthy [report_id] builds the by-id URL
    [.../reports/{report_id}], which has no query string, whatever the
    other filters are; without a [report_id] it builds the list form with
    the query filters.  In both cases the call does what handing a GET for
    that URL to the library does. *)
Theorem reports_by_id_or_list (s : TriageSession)
    (mp cat sd tg ed pg pp rid : pyval) (w : list PreparedRequest) :
  accepted s (Reports mp cat sd tg ed pg pp rid) = true ->
  (py_bool rid = true ->
   run rt s (Reports mp cat sd tg ed pg pp rid) w
   = submit rt s (Reports mp cat sd tg ed pg pp rid)
       (NewRequest "GET" (api_root rt s +:+ "reports/" +:+ py_str rt rid)
                   (with_content_type s "application/json")) w
   /\ substringb "?" ("reports/" +:+ py_str rt rid) = false)
  /\ (py_bool rid = false ->
      run rt s (Reports mp cat sd tg ed pg pp rid) w
      = submit rt s (Reports mp cat sd tg ed pg pp rid)
          (NewRequest "GET"
             (list_url rt s (Reports mp cat sd tg ed pg pp rid)
                (emitted_params (Reports mp cat sd tg ed pg pp rid)))
             (with_content_type s "application/json")) w).
Proof.
  intros Hacc. rewrite (run_accepted _ _ _ Hacc).
  unfold request_of, request_with, call_url. cbn [content_type].
  split; intros Hrid; rewrite Hrid.
  - split; [reflexivity|].
    unfold accepted, args_ok in Hacc. split_andb.
    assert (Hint : isinstance rid T_int = true).
    { match goal with H : param_ok rid T_int = true |- _ =>
        unfold param_ok in H; rewrite Hrid in H; exact H end. }
    pose proof (int_str_no_question_mark rid Hint) as Hq.
    remember (py_str rt rid) as x. simpl. change (EmptyString +:+ x) with x.
    rewrite Hq. reflexivity.
  - reflexivity.
Qed.

(** C7. When a method that returns JSON gets a 200 response, a body that
    [json.loads] rejects raises the base class [TriageError] with a message
    that names the host, and a body it accepts is returned decoded. *)
Theorem json_body_parsed_or_rejected (s : TriageSession) (c : call)
    (w : list PreparedRequest) (req : PreparedRequest) (resp : Response) :
  returns_json c = true ->
  snd (run rt s c w) = (w ++ [req])%list ->
  net rt w req = Replied resp ->
  status_code resp = 200 ->
  match json_loads rt (text resp) with
  | Some j => fst (run rt s c w) = Ok (RJson j)
  | None =>
      exists msg, fst (run rt s c w) = Raise (mkExc TriageError msg)
                  /\ substringb (py_str rt (_triagehost s)) msg = true
  end.
Proof.
  intros Hjson Hsent Hnet H200.
  apply run_sent_inv in Hsent as [Hacc Hprep].
  rewrite (run_dispatch _ _ _ _ Hacc Hprep).
  unfold dispatch, _reqsend, send, mbind, M_bind, raise_if.
  rewrite Hnet, H200, Hjson. cbn. unfold _parse.
  destruct (json_loads rt (text resp)) as [j|]; cbn.
  - reflexivity.
  - eexists. split; [reflexivity|].
    apply (substringb_app (__name__ +:+ ": Triage box ")).
Qed.

(** What [attachment] does to the log. *)
Lemma attachment_log (s : TriageSession) (aid mt : pyval)
    (w : list PreparedRequest) :
  snd (attachment rt s aid mt w) = snd (run rt s (Attachment aid mt) w).
Proof.
  unfold run, mbind at 1, M_bind at 1.
  destruct (attachment rt s aid mt w) as [[b|e] w']; reflexivity.
Qed.

(** C8. A call to [attachment] with an integer id and a string MIME type
    builds a GET for [.../attachment/{attachment_id}] whose Content-Type
    header is the MIME type given.  A request that goes out has that
    Content-Type and the URL the library made of the one built, and on a
    200 response the call returns the raw body, whatever [json.loads] would
    make of it. *)
Theorem attachment_request_and_raw_body (s : TriageSession) (aid : pyval)
    (mime : string) (w : list PreparedRequest) :
  credentials_ok s = true ->
  isinstance aid T_int = true ->
  attachment rt s aid (PStr mime) w
  = (prep ← lift (prepare rt
                    (NewRequest "GET"
                       (api_root rt s +:+ "attachment/" +:+ py_str rt aid)
                       (<["Content-Type" := mime]> (_headers s))));
     resp ← _reqsend rt s prep (_triagehost s);
     mret (content resp)) w
  /\ (forall req,
        snd (attachment rt s aid (PStr mime) w) = (w ++ [req])%list ->
        headers req !! "Content-Type" = Some mime
        /\ prepare_url rt (api_root rt s +:+ "attachment/" +:+ py_str rt aid)
           = Ok (url req)
        /\ (forall resp,
              net rt w req = Replied resp -> status_code resp = 200 ->
              fst (attachment rt s aid (PStr mime) w) = Ok (content resp))).
Proof.
  intros Hcred Haid.
  assert (Hacc : accepted s (Attachment aid (PStr mime)) = true).
  { unfold accepted, args_ok. rewrite Hcred, Haid. reflexivity. }
  split; [apply (attachment_accepted _ _ _ _ Hacc)|].
  intros req Hsent. rewrite attachment_log in Hsent.
  apply run_sent_inv in Hsent as [_ Hprep].
  split; [|split].
  - rewrite (prepared_header _ _ "Content-Type" Hprep) by discriminate.
    apply lookup_insert_eq.
  - apply prepare_inv in Hprep as (_ & Hurl & _). exact Hurl.
  - intros resp Hnet H200.
    rewrite (attachment_accepted _ _ _ _ Hacc).
    unfold lift, mbind at 1, M_bind at 1. rewrite Hprep.
    unfold _reqsend, send, mbind, M_bind, raise_if. rewrite Hnet, H200.
    reflexivity.
Qed.

(** C9, as the code and the library have it.  From a session built by
    [__init__], every request a method builds carries the four headers of
    the session, with [Token token={email}:{apikey}] for Authorization, and
    a URL that starts with [https://] when [ssl] is set and [http://]
    otherwise.  The request that goes out is what the library made of it:
    Accept, VE-API-Version and user-agent are as built, the URL is the
    prepared one, and Authorization is the token unless the prepared URL
    carries credentials, which then take its place. *)
Theorem outbound_headers_and_scheme (host email apikey ssl uag : pyval)
    (s : TriageSession) (c : call) (w : list PreparedRequest)
    (req : PreparedRequest) :
  __init__ rt host email apikey ssl uag = Ok s ->
  snd (run rt s c w) = (w ++ [req])%list ->
  headers req !! "Accept" = Some "application/vnd.ve.v1.0+json"
  /\ headers req !! "VE-API-Version" = Some apiver
  /\ (exists ua, uag = PStr ua /\ headers req !! "user-agent" = Some ua)
  /\ (exists e k, email = PStr e /\ apikey = PStr k
       /\ req_headers (request_of rt s c) !! "Authorization"
          = Some ("Token token=" +:+ e +:+ ":" +:+ k)
       /\ headers req !! "Authorization"
          = Some (match url_auth rt (url req) with
                  | Some basic => basic
                  | None => "Token token=" +:+ e +:+ ":" +:+ k
                  end))
  /\ (exists b, ssl = PBool b
       /\ String.prefix (if b then "https://" else "http://")
                        (req_url (request_of rt s c)) = true
       /\ prepare_url rt (req_url (request_of rt s c)) = Ok (url req)).
Proof.
  intros Hinit Hsent.
  apply run_sent_inv in Hsent as [Hacc Hprep].
  unfold __init__ in Hinit.
  destruct ssl as [|b| | | |]; try discriminate.
  destruct uag as [| | |ua| |]; try discriminate.
  injection Hinit as Hs.
  assert (Hem : _email s = email) by (rewrite <- Hs; reflexivity).
  assert (Hak : _apikey s = apikey) by (rewrite <- Hs; reflexivity).
  assert (Hssl : _usessl s = b) by (rewrite <- Hs; reflexivity).
  assert (Hh : _headers s
               = <["Authorization" :=
                     "Token token=" +:+ py_str rt email +:+ ":"
                     +:+ py_str rt apikey]>
                 (<["user-agent" := ua]>
                 (<["VE-API-Version" := apiver]>
                 (<["Accept" := "application/vnd.ve.v1.0+json"]> ∅))))
    by (rewrite <- Hs; reflexivity).
  clear Hs.
  unfold accepted, credentials_ok in Hacc. rewrite Hem, Hak in Hacc.
  apply andb_true_iff in Hacc as [Hcred _].
  apply andb_true_iff in Hcred as [He Hk].
  apply isinstance_str_inv in He as [e ->].
  apply isinstance_str_inv in Hk as [k ->].
  pose proof (prepare_inv _ _ Hprep) as (_ & Hurl & _ & Hhdr).
  assert (Hbuilt : forall name : string,
            name <> "Content-Type" ->
            req_headers (request_of rt s c) !! name = _headers s !! name).
  { intros name Hname. unfold request_of, request_with, with_content_type.
    cbn [req_headers]. apply lookup_insert_ne. congruence. }
  split; [|split; [|split; [|split]]].
  - rewrite (prepared_header _ _ "Accept" Hprep) by discriminate.
    rewrite Hbuilt by discriminate. rewrite Hh.
    rewrite !lookup_insert_ne by discriminate. apply lookup_insert_eq.
  - rewrite (prepared_header _ _ "VE-API-Version" Hprep) by discriminate.
    rewrite Hbuilt by discriminate. rewrite Hh.
    rewrite !lookup_insert_ne by discriminate. apply lookup_insert_eq.
  - exists ua. split; [reflexivity|].
    rewrite (prepared_header _ _ "user-agent" Hprep) by discriminate.
    rewrite Hbuilt by discriminate. rewrite Hh.
    rewrite !lookup_insert_ne by discriminate. apply lookup_insert_eq.
  - exists e, k. split; [reflexivity|]. split; [reflexivity|].
    assert (Htok : req_headers (request_of rt s c) !! "Authorization"
                   = Some ("Token token=" +:+ e +:+ ":" +:+ k)).
    { rewrite Hbuilt by discriminate. rewrite Hh. apply lookup_insert_eq. }
    split; [exact Htok|].
    rewrite Hhdr. destruct (url_auth rt (url req)).
    + apply lookup_insert_eq.
    + exact Htok.
  - exists b. split; [reflexivity|]. split; [|exact Hurl].
    unfold request_of, request_with. cbn [req_url]. rewrite <- Hssl.
    apply call_url_scheme.
Qed.

(** C10, as the code has it.  [integration_search] judges presence by
    [is not None] in its cross-parameter check and by truthiness when it
    builds the query: when the three parameters are all falsy but not all
    [None], the call passes the check and builds a URL that ends in [?]
    with nothing after it, which it hands to the library; and the truthy
    ones are emitted in the order searchurl, md5, sha256, all three when
    all three are given. *)
Theorem integration_search_presence (s : TriageSession) (sha md su : pyval)
    (w : list PreparedRequest) :
  credentials_ok s = true ->
  is_None sha && is_None md && is_None su = false ->
  (py_bool sha = false -> py_bool md = false -> py_bool su = false ->
   run rt s (IntegrationSearch sha md su) w
   = submit rt s (IntegrationSearch sha md su)
       (NewRequest "GET" (api_root rt s +:+ "integration_search?")
                   (with_content_type s "application/json")) w)
  /\ (param_ok su T_str = true -> param_ok md T_str = true ->
      param_ok sha T_str = true ->
      run rt s (IntegrationSearch sha md su) w
      = submit rt s (IntegrationSearch sha md su)
          (NewRequest "GET"
             (api_root rt s +:+ "integration_search?"
              +:+ String.concat "&"
                    (query_items rt
                       [("searchurl", su); ("md5", md); ("sha256", sha)]))
             (with_content_type s "application/json")) w)
  /\ (forall u m h, su = PStr u -> md = PStr m -> sha = PStr h ->
      py_bool su = true -> py_bool md = true -> py_bool sha = true ->
      run rt s (IntegrationSearch sha md su) w
      = submit rt s (IntegrationSearch sha md su)
          (NewRequest "GET"
             (api_root rt s +:+ "integration_search?searchurl=" +:+ u
              +:+ "&md5=" +:+ m +:+ "&sha256=" +:+ h)
             (with_content_type s "application/json")) w).
Proof.
  intros Hcred Hnone.
  assert (Hgen : param_ok su T_str = true -> param_ok md T_str = true ->
                 param_ok sha T_str = true ->
                 accepted s (IntegrationSearch sha md su) = true).
  { intros Hsu Hmd Hsha. unfold accepted, args_ok.
    rewrite Hcred, Hsu, Hmd, Hsha, Hnone. reflexivity. }
  split; [|split].
  - intros Hsha Hmd Hsu.
    assert (Hacc : accepted s (IntegrationSearch sha md su) = true).
    { apply Hgen; unfold param_ok;
        rewrite ?Hsha, ?Hmd, ?Hsu; reflexivity. }
    rewrite (run_accepted _ _ _ Hacc).
    unfold request_of, request_with, call_url, query_string, emitted_params.
    rewrite !query_items_cons, query_items_nil, Hsha, Hmd, Hsu.
    reflexivity.
  - intros Hsu Hmd Hsha.
    rewrite (run_accepted _ _ _ (Hgen Hsu Hmd Hsha)). reflexivity.
  - intros u m h -> -> -> Hsu Hmd Hsha.
    assert (Hacc : accepted s (IntegrationSearch (PStr h) (PStr m) (PStr u)) = true).
    { apply Hgen; unfold param_ok; rewrite ?Hsha, ?Hmd, ?Hsu; reflexivity. }
    rewrite (run_accepted _ _ _ Hacc).
    unfold request_of, request_with, call_url, query_string, emitted_params.
    rewrite !query_items_cons, query_items_nil, Hsha, Hmd, Hsu.
    reflexivity.
Qed.

(** C4, as the code has it.  For every accepted call the query string of
    the URL the method builds joins the items of the truthy parameters with
    [&], each written [key=value], in the order in which the method appends
    them (for [reports]: tags, page, per_page, start_date, end_date,
    match_priority, category_id), which is not the order of the signature. *)
Theorem query_in_emission_order (s : TriageSession) (c : call)
    (w : list PreparedRequest) :
  accepted s c = true ->
  query_follows emitted_params rt s c w.
Proof. intros Hacc. apply run_accepted. exact Hacc. Qed.

Lemma some_item_when_truthy (sha md su : pyval) :
  py_bool sha || py_bool md || py_bool su = true ->
  is_nonempty (query_items rt [("searchurl", su); ("md5", md); ("sha256", sha)])
  = true.
Proof.
  rewrite !query_items_cons, query_items_nil.
  destruct (py_bool su), (py_bool md), (py_bool sha); simpl; congruence.
Qed.

(** C6, as the code has it.  For [processed_reports], [inbox_reports],
    [clusters], [reports] without a report id and [integration_search] with
    at least one truthy argument, an accepted call builds the URL made of
    the endpoint and the items of its truthy parameters: an optional
    parameter has an item exactly when it is truthy, a falsy value adds
    nothing and raises nothing, and when every optional parameter is falsy
    the URL is the bare endpoint, with no [?]. *)
Theorem optional_params_present_iff_truthy (s : TriageSession) (c : call)
    (w : list PreparedRequest) :
  accepted s c = true ->
  query_by_presence c = true ->
  presence_by_truth rt s c w.
Proof.
  intros Hacc Hlist. unfold presence_by_truth.
  split; [|split].
  - rewrite (run_accepted _ _ _ Hacc).
    unfold request_of, request_with. do 2 f_equal.
    destruct c; try discriminate Hlist;
      unfold call_url, list_url, query_string, url_by_presence;
      cbn [query_by_presence] in Hlist.
    + apply negb_true_iff in Hlist. rewrite Hlist.
      match goal with |- context [is_nonempty ?l] => destruct (is_nonempty l) end;
        reflexivity.
    + match goal with |- context [is_nonempty ?l] => destruct (is_nonempty l) end;
        reflexivity.
    + match goal with |- context [is_nonempty ?l] => destruct (is_nonempty l) end;
        reflexivity.
    + cbn [emitted_params]. rewrite (some_item_when_truthy _ _ _ Hlist).
      reflexivity.
    + match goal with |- context [is_nonempty ?l] => destruct (is_nonempty l) end;
        reflexivity.
  - intros k v Hin.
    destruct c; try discriminate Hlist;
      cbn [optional_params declared_params app In] in Hin;
      repeat (destruct Hin as [Hin|Hin];
              [ injection Hin as <- <-; unfold emitted_params;
                rewrite !has_key_cons, query_items_nil; cbn [has_key existsb];
                compare_keys;
                first [ reflexivity
                      | apply negb_true_iff in Hlist; rewrite Hlist; reflexivity ]
              | ]);
      destruct Hin.
  - intros Hall. unfold all_absent in Hall.
    destruct c; try discriminate Hlist;
      cbn [optional_params declared_params app forallb snd] in Hall;
      split_andb;
      repeat match goal with
             | H : negb _ = true |- _ => apply negb_true_iff in H
             end;
      unfold url_by_presence, emitted_params;
      rewrite !query_items_cons, query_items_nil;
      repeat match goal with
             | H : py_bool _ = false |- _ => rewrite H; clear H
             end;
      reflexivity.
Qed.

(** C2, at the input of the specification's own test.  Given both [md5]
    and [sha256], [integration_search] raises nothing of its own: its only
    cross-parameter check is for three [None]s, so it builds the request
    with both items in the query and hands it to the library, and what the
    library prepares is sent. *)
Theorem integration_search_two_given_is_sent (s : TriageSession)
    (w : list PreparedRequest) :
  credentials_ok s = true ->
  integration_search rt s (PStr "y") (PStr "x") PNone w
  = (prep ← lift (prepare rt
                    (NewRequest "GET"
                       (api_root rt s +:+ "integration_search?md5=x&sha256=y")
                       (with_content_type s "application/json")));
     resp ← _reqsend rt s prep (_triagehost s);
     _parse rt s (text resp)) w
  /\ (forall prep,
        prepare rt
          (NewRequest "GET"
             (api_root rt s +:+ "integration_search?md5=x&sha256=y")
             (with_content_type s "application/json")) = Ok prep ->
        snd (integration_search rt s (PStr "y") (PStr "x") PNone w)
        = (w ++ [prep])%list).
Proof.
  intros Hcred.
  assert (Hacc : accepted s (IntegrationSearch (PStr "y") (PStr "x") PNone) = true).
  { unfold accepted. rewrite Hcred. reflexivity. }
  rewrite (integration_search_accepted _ _ _ _ _ Hacc).
  split; [reflexivity|].
  intros prep Hprep.
  unfold lift, mbind at 1, M_bind at 1.
  change (request_of rt s (IntegrationSearch (PStr "y") (PStr "x") PNone))
    with (NewRequest "GET"
            (api_root rt s +:+ "integration_search?md5=x&sha256=y")
            (with_content_type s "application/json")).
  rewrite Hprep. unfold mbind, M_bind.
  pose proof (reqsend_log s prep (_triagehost s) w) as Hlog.
  destruct (_reqsend rt s prep (_triagehost s) w) as [[resp|e] w'];
    simpl in Hlog; subst w'; [|reflexivity].
  pose proof (parse_log s (text resp) (w ++ [prep])%list) as Hp.
  destruct (_parse rt s (text resp) _) as [r w']. exact Hp.
Qed.

(** C3, at [integration_search(sha256=5)].  The value is truthy and not a
    string, and what is raised is the interpreter's [TypeError] for the
    concatenation ["sha256=" + 5], before any request: its message names
    neither the parameter nor the method's wording, since no check of the
    method looks at [sha256]. *)
Theorem integration_search_sha256_not_checked (s : TriageSession)
    (w : list PreparedRequest) :
  exists msg,
    integration_search rt s (PInt 5) PNone PNone w = (Raise (mkExc TypeError msg), w)
    /\ msg = "can only concatenate str (not " +:+ dq +:+ "int" +:+ dq +:+ ") to str"
    /\ substringb "sha256" msg = false
    /\ substringb "must be a string" msg = false.
Proof.
  eexists. split; [reflexivity|]. split; [reflexivity|].
  split; vm_compute; reflexivity.
Qed.

(** With no argument at all the cross-parameter check does raise, before
    any request. *)
Lemma integration_search_none_given (s : TriageSession)
    (w : list PreparedRequest) :
  credentials_ok s = true ->
  integration_search rt s PNone PNone PNone w
  = (Raise (mkExc ValueError
       (__name__
        +:+ "Triage.integration_search takes exactly 1 argument. You gave none.")),
     w).
Proof.
  intros Hcred. unfold integration_search.
  do 3 (erewrite bind_ok by reflexivity; cbv beta).
  erewrite bind_ok by (apply check_credentials_ok; exact Hcred). cbv beta.
  reflexivity.
Qed.

(** A wrong [md5] never reaches its own check either: the concatenation
    that builds the query item comes first. *)
Lemma integration_search_md5_message (s : TriageSession)
    (w : list PreparedRequest) :
  integration_search rt s PNone (PInt 5) PNone w
  = (Raise (mkExc TypeError
       ("can only concatenate str (not " +:+ dq +:+ "int" +:+ dq +:+ ") to str")),
     w).
Proof. reflexivity. Qed.

(** The message for a wrong [category_id] in [reports] spells the name
    differently. *)
Lemma reports_category_id_message (s : TriageSession) (w : list PreparedRequest) :
  credentials_ok s = true ->
  reports rt s PNone (PStr "x") PNone PNone PNone PNone PNone PNone w
  = (Raise (mkExc TypeError "triagelib: caterory_id parameter must be an integer"),
     w).
Proof.
  intros Hcred. unfold reports.
  erewrite bind_ok by (apply check_credentials_ok; exact Hcred). cbv beta.
  reflexivity.
Qed.

(** * Further properties of the methods *)

(** ** Which exception a rejected call raises *)

Ltac stop_typed :=
  first
    [ erewrite bind_raise by (apply check_param_bad; assumption);
      eexists; split; reflexivity
    | match goal with
      | |- exists _, (?m ≫= _) ?w = _ /\ _ =>
          let e := fresh "e" in
          let He := fresh "He" in
          let Hc := fresh "Hc" in
          assert (exists e, m w = (Raise e, w) /\ exc_cls e = TypeError)
            as [e [He Hc]]
            by (first [ apply check_credentials_bad | apply append_if_str_bad
                      | apply append_if_tags_bad ]; assumption);
          erewrite bind_raise by exact He;
          exists e; split; [reflexivity | exact Hc]
      end ].

Ltac advance_typed :=
  first
    [ pass
    | match goal with
      | |- exists _, (?m ≫= _) _ = _ /\ _ =>
          let c := condition_of m in
          destruct c eqn:?; [ pass | stop_typed ]
      end ].

Lemma reports_rejected_type (s : TriageSession)
    (mp cat sd tg ed pg pp rid : pyval) (w : list PreparedRequest) :
  accepted s (Reports mp cat sd tg ed pg pp rid) = false ->
  exists e, reports rt s mp cat sd tg ed pg pp rid w = (Raise e, w)
            /\ exc_cls e = TypeError.
Proof.
  intros H. unfold reports. do 16 (try advance_typed). all_passed H.
Qed.

Lemma processed_reports_rejected_type (s : TriageSession)
    (mp cat sd tg ed pg pp : pyval) (w : list PreparedRequest) :
  accepted s (ProcessedReports mp cat sd tg ed pg pp) = false ->
  exists e, processed_reports rt s mp cat sd tg ed pg pp w = (Raise e, w)
            /\ exc_cls e = TypeError.
Proof.
  intros H. unfold processed_reports. do 15 (try advance_typed). all_passed H.
Qed.

Lemma inbox_reports_rejected_type (s : TriageSession)
    (mp sd ed pg pp : pyval) (w : list PreparedRequest) :
  accepted s (InboxReports mp sd ed pg pp) = false ->
  exists e, inbox_reports rt s mp sd ed pg pp w = (Raise e, w)
            /\ exc_cls e = TypeError.
Proof.
  intros H. unfold inbox_reports. do 11 (try advance_typed). all_passed H.
Qed.

Lemma clusters_rejected_type (s : TriageSession)
    (mp sd ed pg pp tg : pyval) (w : list PreparedRequest) :
  accepted s (Clusters mp sd ed pg pp tg) = false ->
  exists e, clusters rt s mp sd ed pg pp tg w = (Raise e, w)
            /\ exc_cls e = TypeError.
Proof.
  intros H. unfold clusters. do 13 (try advance_typed). all_passed H.
Qed.

Lemma attachment_rejected_type (s : TriageSession) (aid mt : pyval)
    (w : list PreparedRequest) :
  accepted s (Attachment aid mt) = false ->
  exists e, attachment rt s aid mt w = (Raise e, w) /\ exc_cls e = TypeError.
Proof.
  intros H. unfold attachment. advance_typed.
  destruct (isinstance mt T_str) eqn:Hmt; cbn [negb].
  - pass. destruct (isinstance aid T_int) eqn:Haid; cbn [negb].
    + all_passed H.
    + erewrite bind_raise by apply raise_if_true.
      eexists. split; reflexivity.
  - erewrite bind_raise by apply raise_if_true.
    eexists. split; reflexivity.
Qed.

Lemma is_None_inv (v : pyval) : is_None v = true -> v = PNone.
Proof. destruct v; simpl; congruence. Qed.

Lemma integration_search_rejected_class (s : TriageSession)
    (sha md su : pyval) (w : list PreparedRequest) :
  accepted s (IntegrationSearch sha md su) = false ->
  exists e, integration_search rt s sha md su w = (Raise e, w)
            /\ exc_cls e
               = if no_search_argument s (IntegrationSearch sha md su)
                 then ValueError else TypeError.
Proof.
  intros H. unfold no_search_argument.
  destruct (credentials_ok s && (is_None sha && is_None md && is_None su))
    eqn:Hcase.
  - apply andb_true_iff in Hcase as [Hcred Hnone]. split_andb.
    repeat match goal with
           | Hx : is_None _ = true |- _ => apply is_None_inv in Hx; subst
           end.
    rewrite (integration_search_none_given s w Hcred).
    eexists. split; reflexivity.
  - unfold integration_search. do 7 (try advance_typed).
    rewrite count_None_3.
    destruct (is_None sha && is_None md && is_None su) eqn:Hnone.
    + try match goal with
          | Hx : credentials_ok s = true |- _ => rewrite Hx in Hcase
          end.
      discriminate Hcase.
    + all_passed H.
Qed.

(** A rejected call, with the class of what it raises. *)
Lemma run_rejected_class (s : TriageSession) (c : call)
    (w : list PreparedRequest) :
  accepted s c = false ->
  exists e, run rt s c w = (Raise e, w)
            /\ exc_cls e = if no_search_argument s c then ValueError
                           else TypeError.
Proof.
  intros H.
  assert (exists e,
    match c with
    | Reports mp cat sd tg ed pg pp rid =>
        reports rt s mp cat sd tg ed pg pp rid w = (Raise e, w)
    | ProcessedReports mp cat sd tg ed pg pp =>
        processed_reports rt s mp cat sd tg ed pg pp w = (Raise e, w)
    | InboxReports mp sd ed pg pp =>
        inbox_reports rt s mp sd ed pg pp w = (Raise e, w)
    | Attachment aid mt => attachment rt s aid mt w = (Raise e, w)
    | IntegrationSearch sha md su =>
        integration_search rt s sha md su w = (Raise e, w)
    | Clusters mp sd ed pg pp tg =>
        clusters rt s mp sd ed pg pp tg w = (Raise e, w)
    end /\ exc_cls e = if no_search_argument s c then ValueError
                       else TypeError) as [e [He Hc]].
  { destruct c; try apply integration_search_rejected_class; try exact H;
      unfold no_search_argument; rewrite andb_false_r;
      [ apply reports_rejected_type | apply processed_reports_rejected_type
      | apply inbox_reports_rejected_type | apply attachment_rejected_type
      | apply clusters_rejected_type ]; exact H. }
  exists e. split; [|exact Hc].
  destruct c; unfold run; erewrite bind_raise by exact He; reflexivity.
Qed.

Lemma send_parse_log (s : TriageSession) (prep : PreparedRequest)
    (w : list PreparedRequest) :
  snd ((resp ← _reqsend rt s prep (_triagehost s); _parse rt s (text resp)) w)
  = (w ++ [prep])%list.
Proof.
  unfold mbind, M_bind.
  pose proof (reqsend_log s prep (_triagehost s) w) as Hlog.
  destruct (_reqsend rt s prep (_triagehost s) w) as [[resp|e] w'];
    simpl in Hlog; subst w'; [|reflexivity].
  pose proof (parse_log s (text resp) (w ++ [prep])%list) as Hp.
  destruct (_parse rt s (text resp) _) as [r w']. exact Hp.
Qed.

(** X1. What a call does to the log of requests handed to [Session.send]:
    it adds one request, the prepared one, when its checks pass and the
    library prepares the request it built, and nothing otherwise; a call
    never sends twice and never touches the earlier entries. *)
Theorem call_sends_once_or_not_at_all (s : TriageSession) (c : call)
    (w : list PreparedRequest) :
  snd (run rt s c w)
  = if accepted s c then
      match prepare rt (request_of rt s c) with
      | Ok prep => (w ++ [prep])%list
      | Raise _ => w
      end
    else w.
Proof.
  destruct (accepted s c) eqn:Hacc.
  - rewrite (run_accepted _ _ _ Hacc). apply submit_log.
  - destruct (run_rejected_class s c w Hacc) as [e [-> _]]. reflexivity.
Qed.

(** X2. A call that fails a check raises before the network: the log is
    unchanged and the exception is a [TypeError], or a [ValueError] for
    [integration_search] without any argument; neither is a subclass of
    [TriageError], so a handler for [TriageError] does not see it. *)
Theorem rejected_call_raises_builtin_error (s : TriageSession) (c : call)
    (w : list PreparedRequest) :
  accepted s c = false ->
  exists e,
    run rt s c w = (Raise e, w)
    /\ exc_cls e = (if no_search_argument s c then ValueError else TypeError)
    /\ issubclass (exc_cls e) TriageError = false.
Proof.
  intros Hacc. destruct (run_rejected_class s c w Hacc) as [e [He Hc]].
  exists e. split; [exact He|]. split; [exact Hc|].
  rewrite Hc. destruct (no_search_argument s c); reflexivity.
Qed.

(** X3. [__init__] stores [email] and [apikey] unchecked, and a session
    built with one of them not a string is of no use: every method raises
    [TypeError] and sends nothing. *)
Theorem session_with_bad_credentials_never_sends
    (host email apikey ssl uag : pyval) (s : TriageSession) (c : call)
    (w : list PreparedRequest) :
  __init__ rt host email apikey ssl uag = Ok s ->
  isinstance email T_str && isinstance apikey T_str = false ->
  exists e, run rt s c w = (Raise e, w) /\ exc_cls e = TypeError.
Proof.
  intros Hinit Hbad.
  assert (Hcred : credentials_ok s = false).
  { unfold __init__ in Hinit.
    destruct ssl; try discriminate. destruct uag; try discriminate.
    injection Hinit as <-. exact Hbad. }
  assert (Hacc : accepted s c = false) by (unfold accepted; rewrite Hcred; reflexivity).
  destruct (run_rejected_class s c w Hacc) as [e [He Hc]].
  exists e. split; [exact He|].
  rewrite Hc. unfold no_search_argument. rewrite Hcred. reflexivity.
Qed.

(** X4. An exception of the library is neither caught nor wrapped.  When
    [Request.prepare] refuses the request a call has built, the call raises
    that exception and nothing is sent; when [Session.send] raises for the
    request sent, the call raises that exception. *)
Theorem library_failure_propagates (s : TriageSession) (c : call)
    (w : list PreparedRequest) (e : exc) :
  (accepted s c = true ->
   prepare rt (request_of rt s c) = Raise e ->
   run rt s c w = (Raise e, w))
  /\ (forall req,
        snd (run rt s c w) = (w ++ [req])%list ->
        net rt w req = SendFailed e ->
        run rt s c w = (Raise e, (w ++ [req])%list)).
Proof.
  split.
  - intros Hacc Hprep. rewrite (run_accepted _ _ _ Hacc).
    apply submit_refused, Hprep.
  - intros req Hsent Hnet. apply run_sent_inv in Hsent as [Hacc Hprep].
    rewrite (run_dispatch _ _ _ _ Hacc Hprep).
    unfold dispatch, _reqsend, send, mbind, M_bind. rewrite Hnet. reflexivity.
Qed.

(** X5. Two accepted calls in a row whose requests the library prepares
    send the two prepared requests in that order, and the second is the
    same as if the first call had not been made: no state is carried from
    one call to the next. *)
Theorem two_calls_send_two_requests (s : TriageSession) (c1 c2 : call)
    (p1 p2 : PreparedRequest) (w : list PreparedRequest) :
  accepted s c1 = true ->
  accepted s c2 = true ->
  prepare rt (request_of rt s c1) = Ok p1 ->
  prepare rt (request_of rt s c2) = Ok p2 ->
  snd (run rt s c2 (snd (run rt s c1 w))) = (w ++ [p1; p2])%list.
Proof.
  intros H1 H2 Hp1 Hp2.
  rewrite (run_sent _ _ _ _ H1 Hp1), (run_sent _ _ _ _ H2 Hp2).
  rewrite <- app_assoc. reflexivity.
Qed.

(** ** HTTP outcomes seen from the methods *)

(** X6. When the server answers the request of a call with a status other
    than 200 and 401, the method raises [TriageClientError] for 400-499,
    [TriageServerError] for 500-599 and [TriageError] otherwise, with a
    message that names the host and the status code. *)
Theorem http_error_names_host_and_status (s : TriageSession) (c : call)
    (w : list PreparedRequest) (req : PreparedRequest) (resp : Response) :
  snd (run rt s c w) = (w ++ [req])%list ->
  net rt w req = Replied resp ->
  status_code resp <> 200 ->
  status_code resp <> 401 ->
  run rt s c w
  = (Raise (mkExc
       (if ((400 <=? status_code resp) && (status_code resp <? 500))%Z
        then TriageClientError
        else if ((500 <=? status_code resp) && (status_code resp <? 600))%Z
             then TriageServerError else TriageError)
       (__name__ +:+ ": Triage box " +:+ py_str rt (_triagehost s)
        +:+ " returned HTTP error " +:+ str_of_Z (status_code resp) +:+ ".")),
     (w ++ [req])%list).
Proof.
  intros Hsent Hnet N200 N401. apply run_sent_inv in Hsent as [Hacc Hprep].
  rewrite (run_dispatch _ _ _ _ Hacc Hprep).
  unfold dispatch, _reqsend, send, mbind, M_bind, raise_if. rewrite Hnet.
  destruct (Z.eqb_spec (status_code resp) 401) as [|_]; [contradiction|].
  destruct (Z.eqb_spec (status_code resp) 200) as [|_]; [contradiction|].
  cbn.
  destruct ((400 <=? status_code resp) && (status_code resp <? 500))%Z;
    [reflexivity|].
  destruct ((500 <=? status_code resp) && (status_code resp <? 600))%Z;
    reflexivity.
Qed.

(** X7. When the server answers the request of a call with 401, the method
    raises [TriageAuthError] with a message naming the host; the class
    derives from [TriageClientError], so a handler for client errors sees
    it too. *)
Theorem unauthorized_raises_auth_error (s : TriageSession) (c : call)
    (w : list PreparedRequest) (req : PreparedRequest) (resp : Response) :
  snd (run rt s c w) = (w ++ [req])%list ->
  net rt w req = Replied resp ->
  status_code resp = 401 ->
  run rt s c w
  = (Raise (mkExc TriageAuthError
       (__name__ +:+ ": Could not authenticate to Triage box "
        +:+ py_str rt (_triagehost s) +:+ ".")),
     (w ++ [req])%list)
  /\ issubclass TriageAuthError TriageClientError = true.
Proof.
  intros Hsent Hnet H401. apply run_sent_inv in Hsent as [Hacc Hprep].
  rewrite (run_dispatch _ _ _ _ Hacc Hprep).
  unfold dispatch, _reqsend, send, mbind, M_bind, raise_if.
  rewrite Hnet, H401. split; reflexivity.
Qed.

(** X8. A call returns a value exactly when it sent a request, the server
    answered it with status 200 and, for the methods that return JSON,
    [json.loads] accepted the body: every other status, 2xx and 3xx
    included, every failure of the library and every failed check end in
    an exception. *)
Theorem returns_iff_200_and_parseable (s : TriageSession) (c : call)
    (w : list PreparedRequest) :
  (exists v, fst (run rt s c w) = Ok v)
  <-> (exists req resp,
         snd (run rt s c w) = (w ++ [req])%list
         /\ net rt w req = Replied resp
         /\ status_code resp = 200
         /\ (returns_json c = true -> json_loads rt (text resp) <> None)).
Proof.
  destruct (accepted s c) eqn:Hacc.
  2:{ destruct (run_rejected_class s c w Hacc) as [e [He _]]. rewrite He.
      split.
      - intros [v Hv]. discriminate Hv.
      - intros (req & resp & Hsent & _). destruct (log_grows_ne _ _ Hsent). }
  destruct (prepare rt (request_of rt s c)) as [prep|e] eqn:Hprep.
  2:{ rewrite (run_accepted _ _ _ Hacc), (submit_refused _ _ _ _ _ Hprep).
      split.
      - intros [v Hv]. discriminate Hv.
      - intros (req & resp & Hsent & _). destruct (log_grows_ne _ _ Hsent). }
  pose proof (run_sent _ _ w _ Hacc Hprep) as Hlog.
  assert (Hreq : forall req, snd (run rt s c w) = (w ++ [req])%list -> req = prep).
  { intros req Hsent. rewrite Hlog in Hsent.
    apply app_inv_head in Hsent. congruence. }
  rewrite (run_dispatch _ _ _ _ Hacc Hprep) in *. clear Hlog.
  revert Hreq.
  unfold dispatch, _reqsend, send, mbind, M_bind, raise_if, _parse.
  destruct (net rt w prep) as [resp|e] eqn:Hnet.
  - destruct (Z.eqb_spec (status_code resp) 401) as [E401|N401]; cbn.
    { intros Hreq. split.
      - intros [v Hv]. discriminate Hv.
      - intros (req & r & Hsent & Hr & H200 & _).
        rewrite (Hreq req Hsent), Hnet in Hr. injection Hr as <-. lia. }
    destruct (Z.eqb_spec (status_code resp) 200) as [E200|N200]; cbn.
    + destruct (returns_json c).
      * destruct (json_loads rt (text resp)) as [j|] eqn:Hj; cbn.
        -- intros _. split; [|eauto]. intros _. exists prep, resp.
           split; [reflexivity|]. split; [exact Hnet|]. split; [exact E200|].
           intros _. rewrite Hj. discriminate.
        -- intros Hreq. split.
           ++ intros [v Hv]. discriminate Hv.
           ++ intros (req & r & Hsent & Hr & _ & Hp).
              rewrite (Hreq req Hsent), Hnet in Hr. injection Hr as <-.
              destruct (Hp eq_refl Hj).
      * intros _. split; [|eauto]. intros _. exists prep, resp.
        split; [reflexivity|]. split; [exact Hnet|]. split; [exact E200|].
        intros Hf. discriminate Hf.
    + intros Hreq. split.
      * intros [v Hv].
        destruct ((400 <=? status_code resp) && (status_code resp <? 500))%Z;
          [discriminate Hv|].
        destruct ((500 <=? status_code resp) && (status_code resp <? 600))%Z;
          discriminate Hv.
      * intros (req & r & Hsent & Hr & H200 & _).
        rewrite (Hreq req Hsent), Hnet in Hr. injection Hr as <-.
        contradiction.
  - intros Hreq. split.
    + intros [v Hv]. discriminate Hv.
    + intros (req & r & Hsent & Hr & _).
      rewrite (Hreq req Hsent), Hnet in Hr. discriminate Hr.
Qed.

(** ** The shape of every request *)

(** X10. Every request sent is a GET whose Content-Type header is
    [application/json] for the methods that return JSON and the MIME type
    given for [attachment]. *)
Theorem request_is_get_with_content_type (s : TriageSession) (c : call)
    (w : list PreparedRequest) (req : PreparedRequest) :
  snd (run rt s c w) = (w ++ [req])%list ->
  method req = "GET"
  /\ headers req !! "Content-Type" = Some (content_type rt c)
  /\ (returns_json c = true -> content_type rt c = "application/json").
Proof.
  intros Hsent. apply run_sent_inv in Hsent as [_ Hprep].
  split; [|split].
  - apply prepare_inv in Hprep as (-> & _). reflexivity.
  - rewrite (prepared_header _ _ "Content-Type" Hprep) by discriminate.
    apply lookup_insert_eq.
  - destruct c; try reflexivity. discriminate.
Qed.

Lemma append_assoc (a b c : string) : (a +:+ b) +:+ c = a +:+ b +:+ c.
Proof.
  induction a as [|x a IH]; [reflexivity|].
  change (String x ((a +:+ b) +:+ c) = String x (a +:+ b +:+ c)).
  f_equal. exact IH.
Qed.

Lemma prefix_after (a b t : string) :
  String.prefix b t = true -> String.prefix (a +:+ b) (a +:+ t) = true.
Proof.
  intros H. induction a as [|x a IH]; [exact H|].
  change (String.prefix (String x (a +:+ b)) (String x (a +:+ t)) = true).
  simpl. destruct (ascii_dec x x); [exact IH | congruence].
Qed.

(** X11. The URL of every request sent is what the library's [prepare_url]
    made of a URL that starts with the API root of the session followed by
    the name of the method's endpoint. *)
Theorem sent_url_prepared_from_endpoint (s : TriageSession) (c : call)
    (w : list PreparedRequest) (req : PreparedRequest) :
  snd (run rt s c w) = (w ++ [req])%list ->
  exists built,
    prepare_url rt built = Ok (url req)
    /\ String.prefix (api_root rt s +:+ endpoint c) built = true.
Proof.
  intros Hsent. apply run_sent_inv in Hsent as [_ Hprep].
  apply prepare_inv in Hprep as (_ & Hurl & _).
  eexists. split; [exact Hurl|].
  unfold request_of, request_with. cbn [req_url].
  destruct c; unfold call_url, list_url; cbn [endpoint];
    repeat match goal with |- context [if ?b then _ else _] => destruct b end;
    apply prefix_after; reflexivity.
Qed.

(** ** Required and optional parameters *)

(** X12. The two parameters of [attachment] are required: their checks have
    no truthiness guard, so a missing or falsy value of the wrong class is
    rejected like any other, [mime_type] first, and nothing is sent. *)
Theorem attachment_requires_both (s : TriageSession) (aid mt : pyval)
    (w : list PreparedRequest) :
  credentials_ok s = true ->
  (isinstance mt T_str = false ->
   attachment rt s aid mt w
   = (Raise (mkExc TypeError "triagelib: mime_type parameter must be a string"),
      w))
  /\ (isinstance mt T_str = true -> isinstance aid T_int = false ->
      attachment rt s aid mt w
      = (Raise (mkExc TypeError
           "triagelib: attachment_id parameter must be an integer"), w)).
Proof.
  intros Hcred. unfold attachment.
  erewrite bind_ok by (apply check_credentials_ok; exact Hcred). cbv beta.
  split.
  - intros Hmt. rewrite Hmt. reflexivity.
  - intros Hmt Haid. rewrite Hmt, Haid. reflexivity.
Qed.

(** X13. [tags] is a list for [reports] and [processed_reports] and a
    single string for [clusters]: a truthy value of the other kind is
    rejected with the method's own message, whatever the other arguments
    are, since [tags] is the first parameter checked. *)
Theorem tags_class_differs_by_method (s : TriageSession)
    (mp cat sd tg ed pg pp rid : pyval) (w : list PreparedRequest) :
  credentials_ok s = true ->
  py_bool tg = true ->
  (isinstance tg T_list = false ->
   reports rt s mp cat sd tg ed pg pp rid w
   = (Raise (mkExc TypeError
        "triagelib: tags parameter must be a list of strings"), w)
   /\ processed_reports rt s mp cat sd tg ed pg pp w
      = (Raise (mkExc TypeError
           "triagelib: tags parameter must be a list of strings"), w))
  /\ (isinstance tg T_str = false ->
      clusters rt s mp sd ed pg pp tg w
      = (Raise (mkExc TypeError "triagelib: tags parameter must be a string"),
         w)).
Proof.
  intros Hcred Htg.
  split; [intros Hcls; split | intros Hcls];
    unfold reports, processed_reports, clusters;
    (erewrite bind_ok by (apply check_credentials_ok; exact Hcred)); cbv beta;
    (erewrite bind_raise
       by (apply check_param_bad; unfold param_ok; rewrite Htg, Hcls;
           reflexivity));
    reflexivity.
Qed.

(** ** Values are written into the query as they are *)

Lemma submit_same_kind (s : TriageSession) (c c' : call)
    (req : Request) (w : list PreparedRequest) :
  returns_json c = returns_json c' ->
  submit rt s c req w = submit rt s c' req w.
Proof. intros H. unfold submit, dispatch. rewrite H. reflexivity. Qed.

(** X14. String values are not escaped: a [start_date] that contains
    [&end_date=] sends exactly the request of the call that passes the two
    dates separately, and gets the same result. *)
Theorem query_values_not_escaped (s : TriageSession) (mp pg pp : pyval)
    (x y : string) (w : list PreparedRequest) :
  accepted s (InboxReports mp (PStr x) (PStr y) pg pp) = true ->
  py_bool (PStr x) = true ->
  py_bool (PStr y) = true ->
  run rt s (InboxReports mp (PStr (x +:+ "&end_date=" +:+ y)) PNone pg pp) w
  = run rt s (InboxReports mp (PStr x) (PStr y) pg pp) w.
Proof.
  intros Hacc Hx Hy.
  assert (Hxy : py_bool (PStr (x +:+ "&end_date=" +:+ y)) = true).
  { destruct x; [discriminate Hx | reflexivity]. }
  assert (Hacc' : accepted s
            (InboxReports mp (PStr (x +:+ "&end_date=" +:+ y)) PNone pg pp) = true).
  { revert Hacc. unfold accepted, args_ok, param_ok. cbn [isinstance].
    rewrite !orb_true_r. cbn [py_bool negb orb]. tauto. }
  rewrite (run_accepted _ _ _ Hacc), (run_accepted _ _ _ Hacc').
  rewrite (submit_same_kind s _ (InboxReports mp (PStr x) (PStr y) pg pp))
    by reflexivity.
  f_equal. unfold request_of, request_with. f_equal.
  unfold call_url, list_url, query_string, emitted_params.
  rewrite !query_items_cons, query_items_nil, Hx, Hy, Hxy.
  cbn [py_bool render_value py_str].
  destruct (py_bool pg), (py_bool pp), (py_bool mp);
    cbn [app is_nonempty String.concat]; rewrite ?append_assoc; reflexivity.
Qed.

Lemma map_py_str_strings (ss : list string) :
  map (py_str rt) (map PStr ss) = ss.
Proof. induction ss as [|x ss IH]; simpl; [|rewrite IH]; reflexivity. Qed.

Lemma render_tags_strings (ss : list string) :
  render_value rt (PList (map PStr ss)) = String.concat "," ss.
Proof. unfold render_value. rewrite map_py_str_strings. reflexivity. Qed.

Lemma forallb_strings (ss : list string) :
  forallb (fun v => isinstance v T_str) (map PStr ss) = true.
Proof. induction ss as [|x ss IH]; simpl; [reflexivity | exact IH]. Qed.

(** X15. Tags are joined with commas and not escaped either: a list of
    tags sends the same request as the one tag that spells out the joined
    text. *)
Theorem tags_joined_not_escaped (s : TriageSession)
    (mp cat sd ed pg pp : pyval) (ss : list string) (w : list PreparedRequest) :
  accepted s (ProcessedReports mp cat sd (PList (map PStr ss)) ed pg pp) = true ->
  ss <> [] ->
  run rt s (ProcessedReports mp cat sd (PList [PStr (String.concat "," ss)])
              ed pg pp) w
  = run rt s (ProcessedReports mp cat sd (PList (map PStr ss)) ed pg pp) w.
Proof.
  intros Hacc Hne.
  assert (Hacc' : accepted s
            (ProcessedReports mp cat sd (PList [PStr (String.concat "," ss)])
               ed pg pp) = true).
  { revert Hacc. unfold accepted, args_ok, tags_ok.
    rewrite forallb_strings. cbn [forallb isinstance andb].
    rewrite !orb_true_r. tauto. }
  rewrite (run_accepted _ _ _ Hacc), (run_accepted _ _ _ Hacc').
  rewrite (submit_same_kind s _
             (ProcessedReports mp cat sd (PList (map PStr ss)) ed pg pp))
    by reflexivity.
  f_equal. unfold request_of, request_with. f_equal.
  unfold call_url, list_url, query_string, emitted_params.
  rewrite !query_items_cons, render_tags_strings.
  destruct ss as [|x ss]; [destruct (Hne eq_refl)|]. reflexivity.
Qed.

(** ** Falsy values and [None] *)

Lemma check_param_absent (v : pyval) (t : pytype) (msg : string) :
  check_param (absent_as_none v) t msg = check_param v t msg.
Proof.
  unfold check_param, absent_as_none.
  destruct (py_bool v) eqn:E; [rewrite E|]; reflexivity.
Qed.

Lemma append_if_absent_int (a : string) (v : pyval) :
  append_if (absent_as_none v) (Ok (a +:+ py_str rt (absent_as_none v)))
  = append_if v (Ok (a +:+ py_str rt v)).
Proof.
  unfold append_if, absent_as_none.
  destruct (py_bool v) eqn:E; [rewrite E|]; reflexivity.
Qed.

Lemma append_if_absent_str (a : string) (v : pyval) :
  append_if (absent_as_none v) (str_add a (absent_as_none v))
  = append_if v (str_add a v).
Proof.
  unfold append_if, absent_as_none.
  destruct (py_bool v) eqn:E; [rewrite E|]; reflexivity.
Qed.

Lemma append_if_absent_tags (a : string) (v : pyval) :
  append_if (absent_as_none v)
    (j ← py_join "," (absent_as_none v); Ok (a +:+ j))
  = append_if v (j ← py_join "," v; Ok (a +:+ j)).
Proof.
  unfold append_if, absent_as_none.
  destruct (py_bool v) eqn:E; [rewrite E|]; reflexivity.
Qed.

(** X16. For the four methods whose parameters are all optional filters, a
    falsy argument of any class (0, False, an empty string or list, an empty
    object) is the same as [None]: the call behaves in every respect like
    the call with those arguments left out. *)
Theorem falsy_argument_same_as_none (s : TriageSession) (c : call)
    (w : list PreparedRequest) :
  only_optional_filters c = true ->
  run rt s c w = run rt s (absent_as_none_call c) w.
Proof.
  intros Hopt.
  destruct c as [mp cat sd tg ed pg pp rid | mp cat sd tg ed pg pp
                | mp sd ed pg pp | aid mt | sha md su | mp sd ed pg pp tg];
    try discriminate Hopt; unfold absent_as_none_call, run.
  - unfold reports.
    rewrite (check_param_absent tg), (check_param_absent pg),
      (check_param_absent pp), (check_param_absent sd), (check_param_absent ed),
      (check_param_absent rid), (check_param_absent cat),
      (check_param_absent mp), (append_if_absent_tags _ tg),
      (append_if_absent_int _ pg), (append_if_absent_int _ pp),
      (append_if_absent_str _ sd), (append_if_absent_str _ ed),
      (append_if_absent_int _ mp), (append_if_absent_int _ cat).
    unfold absent_as_none.
    destruct (py_bool rid) eqn:E; cbn [py_bool]; rewrite ?E; reflexivity.
  - unfold processed_reports.
    rewrite (check_param_absent tg), (check_param_absent pg),
      (check_param_absent pp), (check_param_absent sd), (check_param_absent ed),
      (check_param_absent cat), (check_param_absent mp),
      (append_if_absent_tags _ tg), (append_if_absent_int _ pg),
      (append_if_absent_int _ pp), (append_if_absent_str _ sd),
      (append_if_absent_str _ ed), (append_if_absent_int _ cat),
      (append_if_absent_int _ mp).
    reflexivity.
  - unfold inbox_reports.
    rewrite (check_param_absent pg), (check_param_absent pp),
      (check_param_absent sd), (check_param_absent ed), (check_param_absent mp),
      (append_if_absent_int _ pg), (append_if_absent_int _ pp),
      (append_if_absent_str _ sd), (append_if_absent_str _ ed),
      (append_if_absent_int _ mp).
    reflexivity.
  - unfold clusters.
    rewrite (check_param_absent tg), (check_param_absent pg),
      (check_param_absent pp), (check_param_absent sd), (check_param_absent ed),
      (check_param_absent mp), (append_if_absent_str _ tg),
      (append_if_absent_int _ pg), (append_if_absent_int _ pp),
      (append_if_absent_str _ sd), (append_if_absent_str _ ed),
      (append_if_absent_int _ mp).
    reflexivity.
Qed.

(** ** The parameter checks of [integration_search] *)

Lemma append_if_str_bad_msg (a : string) (v : pyval) (ps : list string)
    (w : list PreparedRequest) :
  param_ok v T_str = false ->
  append_if v (str_add a v) ps w
  = (Raise (mkExc TypeError
       ("can only concatenate str (not " +:+ dq +:+ type_name v +:+ dq
        +:+ ") to str")), w).
Proof.
  unfold param_ok, append_if. intros H. destruct (py_bool v) eqn:Hb; simpl in H.
  - destruct v; simpl in H; try discriminate; reflexivity.
  - discriminate.
Qed.

(** X17. Everything [integration_search] can raise before a request is
    sent: [ValueError] for no argument, [TypeError] for a credential that
    is not a string, the interpreter's [TypeError] for the concatenation
    with a truthy argument that is not a string, and whatever the library
    raises when it prepares the request.  No statement of the method ever
    raises its messages about [md5], [searchurl] and [sha256]. *)
Theorem integration_search_preflight_errors (s : TriageSession)
    (sha md su : pyval) (w : list PreparedRequest) (e : exc) :
  integration_search rt s sha md su w = (Raise e, w) ->
  e = mkExc ValueError
        (__name__
         +:+ "Triage.integration_search takes exactly 1 argument. You gave none.")
  \/ e = mkExc TypeError (__name__ +:+ ": email parameter must be a string")
  \/ e = mkExc TypeError (__name__ +:+ ": apikey parameter must be a string")
  \/ (exists v, In v [su; md; sha] /\ py_bool v = true
                /\ isinstance v T_str = false
                /\ e = mkExc TypeError
                         ("can only concatenate str (not " +:+ dq
                          +:+ type_name v +:+ dq +:+ ") to str"))
  \/ prepare rt (request_of rt s (IntegrationSearch sha md su)) = Raise e.
Proof.
  intros Hrun. pose proof Hrun as Hrun0.
  assert (Hbad : forall v, param_ok v T_str = false ->
                 py_bool v = true /\ isinstance v T_str = false).
  { intros v Hv. unfold param_ok in Hv.
    destruct (py_bool v), (isinstance v T_str); try discriminate Hv.
    split; reflexivity. }
  unfold integration_search in Hrun.
  destruct (param_ok su T_str) eqn:Hsu.
  2:{ erewrite bind_raise in Hrun by (apply append_if_str_bad_msg; exact Hsu).
      injection Hrun as <-. do 3 right. left. exists su.
      destruct (Hbad su Hsu). simpl. auto. }
  erewrite bind_ok in Hrun by (apply append_if_str; exact Hsu). cbv beta in Hrun.
  destruct (param_ok md T_str) eqn:Hmd.
  2:{ erewrite bind_raise in Hrun by (apply append_if_str_bad_msg; exact Hmd).
      injection Hrun as <-. do 3 right. left. exists md.
      destruct (Hbad md Hmd). simpl. auto. }
  erewrite bind_ok in Hrun by (apply append_if_str; exact Hmd). cbv beta in Hrun.
  destruct (param_ok sha T_str) eqn:Hsha.
  2:{ erewrite bind_raise in Hrun by (apply append_if_str_bad_msg; exact Hsha).
      injection Hrun as <-. do 3 right. left. exists sha.
      destruct (Hbad sha Hsha). simpl. auto. }
  erewrite bind_ok in Hrun by (apply append_if_str; exact Hsha).
  cbv beta in Hrun.
  unfold check_credentials in Hrun.
  destruct (isinstance (_email s) T_str) eqn:Hem.
  2:{ injection Hrun as <-. right. left. reflexivity. }
  destruct (isinstance (_apikey s) T_str) eqn:Hak.
  2:{ injection Hrun as <-. right. right. left. reflexivity. }
  assert (Hcred : credentials_ok s = true)
    by (unfold credentials_ok; rewrite Hem, Hak; reflexivity).
  destruct (is_None sha && is_None md && is_None su) eqn:Hnone.
  - split_andb.
    repeat match goal with
           | Hx : is_None _ = true |- _ => apply is_None_inv in Hx; subst
           end.
    injection Hrun as <-. left. reflexivity.
  - clear Hrun.
    assert (Hacc : accepted s (IntegrationSearch sha md su) = true).
    { unfold accepted, args_ok. rewrite Hcred, Hsu, Hmd, Hsha, Hnone.
      reflexivity. }
    rewrite (integration_search_accepted _ _ _ _ _ Hacc) in Hrun0.
    unfold lift, mbind at 1, M_bind at 1 in Hrun0.
    destruct (prepare rt (request_of rt s (IntegrationSearch sha md su)))
      as [prep|e'].
    + exfalso. apply (f_equal snd) in Hrun0.
      rewrite send_parse_log in Hrun0. simpl in Hrun0.
      exact (log_grows_ne _ _ (eq_sym Hrun0)).
    + injection Hrun0 as <-. do 4 right. reflexivity.
Qed.

(** ** The headers of a session built by [__init__] *)

(** X18. A request sent from a session built by [__init__] carries these
    five headers and no other. *)
Theorem request_has_exactly_five_headers (host email apikey ssl uag : pyval)
    (s : TriageSession) (c : call) (w : list PreparedRequest)
    (req : PreparedRequest) :
  __init__ rt host email apikey ssl uag = Ok s ->
  snd (run rt s c w) = (w ++ [req])%list ->
  dom (headers req)
  = ({[ "Accept"; "VE-API-Version"; "user-agent"; "Authorization";
        "Content-Type" ]} : gset string).
Proof.
  intros Hinit Hsent. apply run_sent_inv in Hsent as [_ Hprep].
  apply prepare_inv in Hprep as (_ & _ & _ & ->).
  unfold __init__ in Hinit.
  destruct ssl; try discriminate. destruct uag; try discriminate.
  injection Hinit as <-.
  unfold request_of, request_with, with_content_type.
  cbn [req_headers _headers].
  destruct (url_auth rt (url req));
    rewrite !dom_insert_L, dom_empty_L; set_solver.
Qed.

End Properties.

(** * The claims at concrete calls *)

(** [__init__] with the default [ssl] and [uag] builds the sample session. *)
Example init_sample_session :
  __init__ (sample_runtime ok_response) (PStr "triage.example")
    (PStr "me@example.org") (PStr "k3y") default_ssl default_uag
  = Ok sample_session.
Proof. reflexivity. Qed.

(** [__init__] stores a host without looking at it. *)
Example init_userinfo_session :
  __init__ (sample_runtime ok_response) (PStr "u:p@h")
    (PStr "me@example.org") (PStr "k3y") default_ssl default_uag
  = Ok userinfo_session.
Proof. reflexivity. Qed.

(** C1 at a 404 response: [TriageClientError]. *)
Lemma reqsend_classifies_status_witness :
  exists msg,
    fst (_reqsend (sample_runtime not_found_response) sample_session
           (mkRequest "GET" "https://triage.example/api/public/v1/reports" ∅)
           (PStr "triage.example") [])
    = Raise (mkExc TriageClientError msg).
Proof.
  destruct (reqsend_classifies_status (sample_runtime not_found_response)
              sample_session
              (mkRequest "GET" "https://triage.example/api/public/v1/reports" ∅)
              (PStr "triage.example") [] not_found_response eq_refl)
    as (_ & _ & Hclient & _).
  apply Hclient; simpl; lia.
Defined.

(** C5 at [reports(tags=["a"], page=2, report_id=42)]. *)
Lemma reports_by_id_or_list_witness :
  exists req,
    snd (run (sample_runtime ok_response) sample_session
           (Reports PNone PNone PNone (PList [PStr "a"]) PNone (PInt 2) PNone
                    (PInt 42)) [])
    = [req]
    /\ url req = "https://triage.example/api/public/v1/reports/42".
Proof.
  destruct (reports_by_id_or_list (sample_runtime ok_response) sample_session
              PNone PNone PNone (PList [PStr "a"]) PNone (PInt 2) PNone (PInt 42)
              [] eq_refl) as [Hid _].
  destruct (Hid eq_refl) as [Hrun _]. rewrite Hrun.
  eexists. split; reflexivity.
Defined.

(** C7 at [inbox_reports()] answered with a body that is not JSON. *)
Lemma json_body_parsed_or_rejected_witness :
  exists msg,
    fst (run (sample_runtime garbled_response) sample_session
           (InboxReports PNone PNone PNone PNone PNone) [])
    = Raise (mkExc TriageError msg)
    /\ substringb "triage.example" msg = true.
Proof.
  exact (json_body_parsed_or_rejected (sample_runtime garbled_response)
           sample_session (InboxReports PNone PNone PNone PNone PNone) []
           _ garbled_response eq_refl eq_refl eq_refl eq_refl).
Defined.

(** C8 at [attachment(attachment_id=7, mime_type="application/pdf")]. *)
Lemma attachment_request_and_raw_body_witness :
  exists req,
    snd (attachment (sample_runtime pdf_response) sample_session (PInt 7)
           (PStr "application/pdf") [])
    = [req]
    /\ url req = "https://triage.example/api/public/v1/attachment/7"
    /\ headers req !! "Content-Type" = Some "application/pdf"
    /\ fst (attachment (sample_runtime pdf_response) sample_session (PInt 7)
              (PStr "application/pdf") [])
       = Ok [Byte.x25; Byte.x50; Byte.x44; Byte.x46].
Proof.
  destruct (attachment_request_and_raw_body (sample_runtime pdf_response)
              sample_session (PInt 7) "application/pdf" [] eq_refl eq_refl)
    as [_ Hsent].
  eexists. split; [reflexivity|].
  destruct (Hsent _ eq_refl) as (Hct & _ & Hbody).
  split; [reflexivity|]. split; [exact Hct|].
  apply (Hbody pdf_response); reflexivity.
Defined.

(** C9 as the specification states it fails when the host string carries a
    user and a password: the library takes them for the credentials of the
    request, and what goes out has [Basic dTpw] for Authorization, not the
    token. *)
Lemma authorization_replaced_by_url_credentials :
  ~ sends_token_authorization (sample_runtime ok_response) userinfo_session
      (Clusters PNone PNone PNone PNone PNone PNone) [].
Proof.
  intros H. epose proof (H _ eq_refl) as Hauth.
  vm_compute in Hauth. discriminate Hauth.
Qed.

(** What that call sends. *)
Example userinfo_request_as_sent :
  map (fun req => (url req, headers req !! "Authorization"))
    (snd (run (sample_runtime ok_response) userinfo_session
            (Clusters PNone PNone PNone PNone PNone PNone) []))
  = [("https://u:p@h/api/public/v1/clusters", Some "Basic dTpw")].
Proof. reflexivity. Qed.

(** C9, amended, at [clusters(page=3)] on the sample session. *)
Lemma outbound_headers_and_scheme_witness :
  exists req,
    snd (run (sample_runtime ok_response) sample_session
           (Clusters PNone PNone PNone (PInt 3) PNone PNone) [])
    = [req]
    /\ headers req !! "Accept" = Some "application/vnd.ve.v1.0+json"
    /\ headers req !! "VE-API-Version" = Some "1.0.0"
    /\ headers req !! "user-agent" = Some "Python CoFense Triage Client"
    /\ headers req !! "Authorization" = Some "Token token=me@example.org:k3y"
    /\ String.prefix "https://" (url req) = true.
Proof.
  eexists. split; [reflexivity|].
  destruct (outbound_headers_and_scheme (sample_runtime ok_response)
              (PStr "triage.example") (PStr "me@example.org") (PStr "k3y")
              default_ssl default_uag sample_session
              (Clusters PNone PNone PNone (PInt 3) PNone PNone) [] _
              eq_refl eq_refl)
    as (Hacc & Hver & (ua & Eua & Hua) & (e & k & Ee & Ek & _ & Hauth) & _).
  injection Eua as <-. injection Ee as <-. injection Ek as <-.
  split; [exact Hacc|]. split; [exact Hver|]. split; [exact Hua|].
  split; [exact Hauth | reflexivity].
Defined.

(** C10 as the specification states it fails at
    [integration_search(md5=EmptyString)]: the URL built ends in [?], but the library
    drops an empty query, and the request that goes out has no [?]. *)
Lemma empty_query_is_not_sent :
  ~ sends_bare_question_mark (sample_runtime ok_response) sample_session
      (IntegrationSearch PNone (PStr EmptyString) PNone) [].
Proof.
  intros (req & Hsent & Hq).
  vm_compute in Hsent. injection Hsent as <-.
  vm_compute in Hq. discriminate Hq.
Qed.

(** What that call sends. *)
Example integration_search_empty_md5 :
  map url (snd (run (sample_runtime ok_response) sample_session
                  (IntegrationSearch PNone (PStr EmptyString) PNone) []))
  = ["https://triage.example/api/public/v1/integration_search"].
Proof. reflexivity. Qed.

(** C10, amended, at [integration_search(md5=EmptyString)] and at a call with all
    three parameters given. *)
Lemma integration_search_presence_witness :
  run (sample_runtime ok_response) sample_session
    (IntegrationSearch PNone (PStr EmptyString) PNone) []
  = submit (sample_runtime ok_response) sample_session
      (IntegrationSearch PNone (PStr EmptyString) PNone)
      (NewRequest "GET"
         "https://triage.example/api/public/v1/integration_search?"
         (with_content_type sample_session "application/json")) []
  /\ run (sample_runtime ok_response) sample_session
       (IntegrationSearch (PStr "h") (PStr "m") (PStr "u")) []
     = submit (sample_runtime ok_response) sample_session
         (IntegrationSearch (PStr "h") (PStr "m") (PStr "u"))
         (NewRequest "GET"
            "https://triage.example/api/public/v1/integration_search?searchurl=u&md5=m&sha256=h"
            (with_content_type sample_session "application/json")) [].
Proof.
  split.
  - destruct (integration_search_presence (sample_runtime ok_response)
                sample_session PNone (PStr EmptyString) PNone [] eq_refl eq_refl)
      as (Hfalsy & _ & _).
    exact (Hfalsy eq_refl eq_refl eq_refl).
  - destruct (integration_search_presence (sample_runtime ok_response)
                sample_session (PStr "h") (PStr "m") (PStr "u") [] eq_refl eq_refl)
      as (_ & _ & Hall).
    exact (Hall "u" "m" "h" eq_refl eq_refl eq_refl eq_refl eq_refl eq_refl).
Defined.

(** C4 as the specification states it fails at
    [reports(match_priority=1, tags=["a"])]: the request asks for
    [tags=a&match_priority=1], and the order of the signature would put
    [match_priority] first. *)
Lemma reports_query_not_in_signature_order :
  ~ query_follows declared_params (sample_runtime ok_response) sample_session
      (Reports (PInt 1) PNone PNone (PList [PStr "a"]) PNone PNone PNone PNone) [].
Proof.
  unfold query_follows. intros H.
  apply (f_equal (fun r => map url (snd r))) in H.
  vm_compute in H. discriminate H.
Qed.

(** The request of that call, for comparison. *)
Example reports_query_as_sent :
  map url (snd (run (sample_runtime ok_response) sample_session
                  (Reports (PInt 1) PNone PNone (PList [PStr "a"]) PNone PNone
                           PNone PNone) []))
  = ["https://triage.example/api/public/v1/reports?tags=a&match_priority=1"].
Proof. reflexivity. Qed.

(** C4, amended, at the same call. *)
Lemma query_in_emission_order_witness :
  query_follows emitted_params (sample_runtime ok_response) sample_session
    (Reports (PInt 1) PNone PNone (PList [PStr "a"]) PNone PNone PNone PNone) [].
Proof.
  exact (query_in_emission_order (sample_runtime ok_response) sample_session
           (Reports (PInt 1) PNone PNone (PList [PStr "a"]) PNone PNone PNone
                    PNone) [] eq_refl).
Defined.

(** C6 as the specification states it fails in two places:
    [integration_search()] raises instead of building a request, and
    [reports(match_priority=1, report_id=42)] has a truthy [match_priority]
    that is in no query string. *)
Lemma presence_by_truth_fails :
  ~ presence_by_truth (sample_runtime ok_response) sample_session
      (IntegrationSearch PNone PNone PNone) []
  /\ ~ presence_by_truth (sample_runtime ok_response) sample_session
         (Reports (PInt 1) PNone PNone PNone PNone PNone PNone (PInt 42)) [].
Proof.
  split.
  - intros [Hrun _]. apply (f_equal snd) in Hrun.
    vm_compute in Hrun. discriminate Hrun.
  - intros [Hrun _].
    apply (f_equal (fun r => map url (snd r))) in Hrun.
    vm_compute in Hrun. discriminate Hrun.
Qed.

(** What those two calls do. *)
Example integration_search_no_arguments :
  run (sample_runtime ok_response) sample_session
    (IntegrationSearch PNone PNone PNone) []
  = (Raise (mkExc ValueError
       "triagelibTriage.integration_search takes exactly 1 argument. You gave none."),
     []).
Proof. reflexivity. Qed.

Example reports_by_id_ignores_filters :
  map url (snd (run (sample_runtime ok_response) sample_session
                  (Reports (PInt 1) PNone PNone PNone PNone PNone PNone (PInt 42))
                  []))
  = ["https://triage.example/api/public/v1/reports/42"].
Proof. reflexivity. Qed.

(** C6, amended, at [reports(tags=["a","b"], page=2, per_page=0)] and at
    [integration_search(md5="x")]. *)
Lemma optional_params_present_iff_truthy_witness :
  presence_by_truth (sample_runtime ok_response) sample_session
    (Reports PNone PNone PNone (PList [PStr "a"; PStr "b"]) PNone (PInt 2)
             (PInt 0) PNone) []
  /\ presence_by_truth (sample_runtime ok_response) sample_session
       (IntegrationSearch PNone (PStr "x") PNone) [].
Proof.
  split.
  - exact (optional_params_present_iff_truthy (sample_runtime ok_response)
             sample_session
             (Reports PNone PNone PNone (PList [PStr "a"; PStr "b"]) PNone
                      (PInt 2) (PInt 0) PNone) [] eq_refl eq_refl).
  - exact (optional_params_present_iff_truthy (sample_runtime ok_response)
             sample_session (IntegrationSearch PNone (PStr "x") PNone) []
             eq_refl eq_refl).
Defined.

(** C2 on the sample session: [integration_search(md5="x", sha256="y")]. *)
Lemma integration_search_two_given_is_sent_witness :
  exists req,
    url req = "https://triage.example/api/public/v1/integration_search?md5=x&sha256=y"
    /\ snd (integration_search (sample_runtime ok_response) sample_session
              (PStr "y") (PStr "x") PNone [])
       = [req].
Proof.
  destruct (integration_search_two_given_is_sent (sample_runtime ok_response)
              sample_session [] eq_refl) as [_ Hsent].
  eexists. split; [|apply Hsent; reflexivity]. reflexivity.
Defined.

(** * The further properties at concrete calls *)

(** X2 at [reports(page="two")] and at [integration_search()]. *)
Lemma rejected_call_raises_builtin_error_witness :
  (exists e,
     run (sample_runtime ok_response) sample_session
       (Reports PNone PNone PNone PNone PNone (PStr "two") PNone PNone) []
     = (Raise e, [])
     /\ exc_cls e = TypeError)
  /\ (exists e,
        run (sample_runtime ok_response) sample_session
          (IntegrationSearch PNone PNone PNone) []
        = (Raise e, [])
        /\ exc_cls e = ValueError).
Proof.
  split.
  - destruct (rejected_call_raises_builtin_error (sample_runtime ok_response)
                sample_session
                (Reports PNone PNone PNone PNone PNone (PStr "two") PNone PNone)
                [] eq_refl) as (e & He & Hc & _).
    exists e. split; [exact He | exact Hc].
  - destruct (rejected_call_raises_builtin_error (sample_runtime ok_response)
                sample_session (IntegrationSearch PNone PNone PNone)
                [] eq_refl) as (e & He & Hc & _).
    exists e. split; [exact He | exact Hc].
Defined.

(** X3 at a session built with the integer 5 for [email]. *)
Lemma session_with_bad_credentials_never_sends_witness :
  exists s,
    __init__ (sample_runtime ok_response) (PStr "triage.example") (PInt 5)
      (PStr "k3y") default_ssl default_uag = Ok s
    /\ exists e,
         run (sample_runtime ok_response) s
           (Clusters PNone PNone PNone PNone PNone PNone) []
         = (Raise e, [])
         /\ exc_cls e = TypeError.
Proof.
  eexists. split; [reflexivity|].
  exact (session_with_bad_credentials_never_sends (sample_runtime ok_response)
           (PStr "triage.example") (PInt 5) (PStr "k3y") default_ssl default_uag
           _ (Clusters PNone PNone PNone PNone PNone PNone) [] eq_refl eq_refl).
Defined.

(** X4 at [inbox_reports()] on a session without a host, and with the
    network down. *)
Lemma library_failure_propagates_witness :
  run (sample_runtime ok_response) hostless_session
    (InboxReports PNone PNone PNone PNone PNone) []
  = (Raise (mkExc (ExternalError "InvalidURL")
       "Invalid URL 'https:///api/public/v1/inbox_reports': No host supplied"),
     [])
  /\ fst (run offline_runtime sample_session
            (InboxReports PNone PNone PNone PNone PNone) [])
     = Raise connection_refused.
Proof.
  split.
  - destruct (library_failure_propagates (sample_runtime ok_response)
                hostless_session (InboxReports PNone PNone PNone PNone PNone) []
                (mkExc (ExternalError "InvalidURL")
                   "Invalid URL 'https:///api/public/v1/inbox_reports': No host supplied"))
      as [Hprep _].
    exact (Hprep eq_refl eq_refl).
  - destruct (library_failure_propagates offline_runtime sample_session
                (InboxReports PNone PNone PNone PNone PNone) []
                connection_refused) as [_ Hsend].
    rewrite (Hsend _ eq_refl eq_refl). reflexivity.
Defined.

(** X5 at [inbox_reports()] followed by [clusters(page=3)]. *)
Lemma two_calls_send_two_requests_witness :
  map url
    (snd (run (sample_runtime ok_response) sample_session
            (Clusters PNone PNone PNone (PInt 3) PNone PNone)
            (snd (run (sample_runtime ok_response) sample_session
                    (InboxReports PNone PNone PNone PNone PNone) []))))
  = ["https://triage.example/api/public/v1/inbox_reports";
     "https://triage.example/api/public/v1/clusters?page=3"].
Proof.
  rewrite (two_calls_send_two_requests (sample_runtime ok_response)
             sample_session (InboxReports PNone PNone PNone PNone PNone)
             (Clusters PNone PNone PNone (PInt 3) PNone PNone) _ _ []
             eq_refl eq_refl eq_refl eq_refl).
  reflexivity.
Defined.

(** X6 at [clusters()] answered with 503. *)
Lemma http_error_names_host_and_status_witness :
  fst (run (sample_runtime unavailable_response) sample_session
         (Clusters PNone PNone PNone PNone PNone PNone) [])
  = Raise (mkExc TriageServerError
             "triagelib: Triage box triage.example returned HTTP error 503.").
Proof.
  rewrite (http_error_names_host_and_status
             (sample_runtime unavailable_response) sample_session
             (Clusters PNone PNone PNone PNone PNone PNone) [] _
             unavailable_response eq_refl eq_refl
             ltac:(simpl; lia) ltac:(simpl; lia)).
  reflexivity.
Defined.

(** X7 at [clusters()] answered with 401. *)
Lemma unauthorized_raises_auth_error_witness :
  fst (run (sample_runtime unauthorized_response) sample_session
         (Clusters PNone PNone PNone PNone PNone PNone) [])
  = Raise (mkExc TriageAuthError
             "triagelib: Could not authenticate to Triage box triage.example.").
Proof.
  destruct (unauthorized_raises_auth_error
              (sample_runtime unauthorized_response) sample_session
              (Clusters PNone PNone PNone PNone PNone PNone) [] _
              unauthorized_response eq_refl eq_refl eq_refl) as [Hrun _].
  rewrite Hrun. reflexivity.
Defined.

(** X8 at [clusters()] answered with 204: no value comes back. *)
Lemma returns_iff_200_and_parseable_witness :
  ~ exists v,
      fst (run (sample_runtime no_content_response) sample_session
             (Clusters PNone PNone PNone PNone PNone PNone) [])
      = Ok v.
Proof.
  intros Hv.
  apply (returns_iff_200_and_parseable (sample_runtime no_content_response)
           sample_session (Clusters PNone PNone PNone PNone PNone PNone) [])
    in Hv.
  destruct Hv as (req & resp & _ & Hnet & H200 & _).
  injection Hnet as <-. discriminate H200.
Defined.

(** X10 at [attachment(attachment_id=7, mime_type="application/pdf")]. *)
Lemma request_is_get_with_content_type_witness :
  exists req,
    snd (run (sample_runtime pdf_response) sample_session
           (Attachment (PInt 7) (PStr "application/pdf")) [])
    = [req]
    /\ method req = "GET"
    /\ headers req !! "Content-Type" = Some "application/pdf".
Proof.
  eexists. split; [reflexivity|].
  destruct (request_is_get_with_content_type (sample_runtime pdf_response)
              sample_session (Attachment (PInt 7) (PStr "application/pdf")) []
              _ eq_refl) as (Hget & Hct & _).
  split; [exact Hget | exact Hct].
Defined.

(** X11 at [integration_search(md5=EmptyString)]: built with a [?], sent without. *)
Lemma sent_url_prepared_from_endpoint_witness :
  exists built,
    sample_prepare_url built
    = Ok "https://triage.example/api/public/v1/integration_search"
    /\ String.prefix "https://triage.example/api/public/v1/integration_search"
         built = true.
Proof.
  exact (sent_url_prepared_from_endpoint (sample_runtime ok_response)
           sample_session (IntegrationSearch PNone (PStr EmptyString) PNone) []
           _ eq_refl).
Defined.

(** X12 at [attachment(7, None)] and [attachment(None, "application/pdf")]. *)
Lemma attachment_requires_both_witness :
  attachment (sample_runtime pdf_response) sample_session (PInt 7) PNone []
  = (Raise (mkExc TypeError "triagelib: mime_type parameter must be a string"),
     [])
  /\ attachment (sample_runtime pdf_response) sample_session PNone
       (PStr "application/pdf") []
     = (Raise (mkExc TypeError
          "triagelib: attachment_id parameter must be an integer"), []).
Proof.
  split.
  - destruct (attachment_requires_both (sample_runtime pdf_response)
                sample_session (PInt 7) PNone [] eq_refl) as [Hmime _].
    exact (Hmime eq_refl).
  - destruct (attachment_requires_both (sample_runtime pdf_response)
                sample_session PNone (PStr "application/pdf") [] eq_refl)
      as [_ Hid].
    exact (Hid eq_refl eq_refl).
Defined.

(** X13 at [reports(tags="a")] and [clusters(tags=["a"])]. *)
Lemma tags_class_differs_by_method_witness :
  reports (sample_runtime ok_response) sample_session PNone PNone PNone
    (PStr "a") PNone PNone PNone PNone []
  = (Raise (mkExc TypeError
       "triagelib: tags parameter must be a list of strings"), [])
  /\ clusters (sample_runtime ok_response) sample_session PNone PNone PNone
       PNone PNone (PList [PStr "a"]) []
     = (Raise (mkExc TypeError "triagelib: tags parameter must be a string"), []).
Proof.
  split.
  - destruct (tags_class_differs_by_method (sample_runtime ok_response)
                sample_session PNone PNone PNone (PStr "a") PNone PNone PNone
                PNone [] eq_refl eq_refl) as [Hlist _].
    destruct (Hlist eq_refl) as [Hreports _]. exact Hreports.
  - destruct (tags_class_differs_by_method (sample_runtime ok_response)
                sample_session PNone PNone PNone (PList [PStr "a"]) PNone PNone
                PNone PNone [] eq_refl eq_refl) as [_ Hstr].
    exact (Hstr eq_refl).
Defined.

(** X14 at [inbox_reports(start_date="2020&end_date=2021")]. *)
Lemma query_values_not_escaped_witness :
  run (sample_runtime ok_response) sample_session
    (InboxReports PNone (PStr "2020&end_date=2021") PNone PNone PNone) []
  = run (sample_runtime ok_response) sample_session
      (InboxReports PNone (PStr "2020") (PStr "2021") PNone PNone) [].
Proof.
  exact (query_values_not_escaped (sample_runtime ok_response) sample_session
           PNone PNone PNone "2020" "2021" [] eq_refl eq_refl eq_refl).
Defined.

(** X15 at [processed_reports(tags=["a,b"])] and [tags=["a","b"]]. *)
Lemma tags_joined_not_escaped_witness :
  run (sample_runtime ok_response) sample_session
    (ProcessedReports PNone PNone PNone (PList [PStr "a,b"]) PNone PNone PNone) []
  = run (sample_runtime ok_response) sample_session
      (ProcessedReports PNone PNone PNone (PList [PStr "a"; PStr "b"]) PNone
         PNone PNone) [].
Proof.
  exact (tags_joined_not_escaped (sample_runtime ok_response) sample_session
           PNone PNone PNone PNone PNone PNone ["a"; "b"] [] eq_refl
           ltac:(discriminate)).
Defined.

(** X16 at [reports(page=0, tags=[], report_id=0)]: the same as [reports()]. *)
Lemma falsy_argument_same_as_none_witness :
  run (sample_runtime ok_response) sample_session
    (Reports PNone PNone PNone (PList []) PNone (PInt 0) PNone (PInt 0)) []
  = run (sample_runtime ok_response) sample_session
      (Reports PNone PNone PNone PNone PNone PNone PNone PNone) [].
Proof.
  exact (falsy_argument_same_as_none (sample_runtime ok_response) sample_session
           (Reports PNone PNone PNone (PList []) PNone (PInt 0) PNone (PInt 0))
           [] eq_refl).
Defined.

(** X17 at [integration_search(md5=5)]. *)
Lemma integration_search_preflight_errors_witness :
  exists v,
    In v [PNone; PInt 5; PNone]
    /\ mkExc TypeError
         ("can only concatenate str (not " +:+ dq +:+ "int" +:+ dq +:+ ") to str")
       = mkExc TypeError
           ("can only concatenate str (not " +:+ dq +:+ type_name v +:+ dq
            +:+ ") to str").
Proof.
  destruct (integration_search_preflight_errors (sample_runtime ok_response)
              sample_session PNone (PInt 5) PNone []
              (mkExc TypeError
                 ("can only concatenate str (not " +:+ dq +:+ "int" +:+ dq
                  +:+ ") to str"))
              eq_refl)
    as [H | [H | [H | [(v & Hin & _ & _ & Hv) | H]]]];
    try discriminate H.
  exists v. split; [exact Hin | exact Hv].
Defined.

(** X18 at [clusters(page=3)] on the sample session. *)
Lemma request_has_exactly_five_headers_witness :
  exists req,
    snd (run (sample_runtime ok_response) sample_session
           (Clusters PNone PNone PNone (PInt 3) PNone PNone) [])
    = [req]
    /\ dom (headers req)
       = ({[ "Accept"; "VE-API-Version"; "user-agent"; "Authorization";
             "Content-Type" ]} : gset string).
Proof.
  eexists. split; [reflexivity|].
  exact (request_has_exactly_five_headers (sample_runtime ok_response)
           (PStr "triage.example") (PStr "me@example.org") (PStr "k3y")
           default_ssl default_uag sample_session
           (Clusters PNone PNone PNone (PInt 3) PNone PNone) [] _
           eq_refl eq_refl).
Defined.
